(** * request_fixture.py: the fixtures of the module and the request object

    A shallow embedding of [src/request_fixture.py].  The fixtures of the
    module are Python functions that receive pytest's [request] object; they
    are written here in a state-and-exception monad over a [world] holding the
    Python heap (dictionaries are mutable, shared objects), the collection
    node of the running test with its markers, the finalizer queue of the
    running fixture instantiation, standard output, and the fixture
    instances of the running test.

    The fixture functions are translated from the source.  pytest itself is
    consumed by the module, not part of it: the operations of the request
    object are modelled from the contract in sections 2, 3 and 6 of the
    specification, and every such definition says so. *)

From stdpp Require Import gmap strings pretty list fin_maps.

Local Open Scope Z_scope.
Local Open Scope string_scope.
Local Open Scope list_scope.

(** ** Python values and exceptions *)

Abbreviation loc := positive.

(** Dictionaries live on the heap and are handled through references
    ([VRef]); lists are never mutated by the module and are kept as values. *)
#[warnings="-register-all"]
Inductive pyval :=
  | VNone
  | VBool (b : bool)
  | VInt (z : Z)
  | VStr (s : string)
  | VPath (p : string)
  | VList (xs : list pyval)
  | VRef (l : loc).

Abbreviation dict := (gmap string pyval).

(** The exception classes the module can meet.  The first five derive from
    [BaseException] only ([Skipped] and [Failed] are pytest's outcome
    exceptions); the others derive from [Exception], and so does [Exit],
    which pytest declares as [class Exit(Exception)]. *)
Inductive exc_type :=
  | KeyboardInterrupt
  | SystemExit
  | GeneratorExit
  | Skipped
  | Failed
  | Exit
  | AttributeError
  | KeyError
  | TypeError
  | SystemError
  | FixtureLookupError
  | OtherException (name : string).

Record exn := Exn { exn_type : exc_type; exn_msg : string }.

(** [issubclass(type(e), Exception)], what an [except Exception:] clause
    tests. *)
Definition issubclass_Exception (e : exn) : bool :=
  match exn_type e with
  | KeyboardInterrupt | SystemExit | GeneratorExit
  | Skipped | Failed => false
  | _ => true
  end.

(** ** Markers, nodes, finalizers and the world *)

(** A marker is a (name, args, kwargs) tuple. *)
Record Mark := mkMark {
  mark_name : string;
  mark_args : list pyval;
  mark_kwargs : list (string * pyval);
}.

(** [node.callspec] of a parametrized test; each optional part is an
    attribute the source probes with [hasattr]. *)
Record CallSpec := mkCallSpec {
  metafunc_funcargnames : option (list string);
  callspec_params : option dict;
}.

(** A collection node: its name, the markers attached to it, its extra
    keywords, and the call specification, which only the item of a
    parametrized test has. *)
Record Node := mkNode {
  node_name : string;
  own_markers : list Mark;
  extra_keyword_matches : list string;
  callspec : option CallSpec;
}.

(** The two closures the module registers with [request.addfinalizer],
    defunctionalised: [cleanup_function] captures nothing, [teardown]
    captures the [resource] dictionary of [managed_resource]. *)
Inductive finalizer :=
  | cleanup_function
  | teardown (resource : loc).

Record world := mkWorld {
  heap : gmap loc dict;
  item : Node;                  (* request.node, the running test *)
  parents : list Node;          (* its ancestors, nearest first *)
  finalizers : list finalizer;  (* in registration order *)
  stdout : list string;
  instances : gmap string pyval; (* the fixture values of the running test *)
}.

Definition set_heap (f : gmap loc dict → gmap loc dict) (w : world) : world :=
  mkWorld (f (heap w)) (item w) (parents w) (finalizers w) (stdout w)
    (instances w).
Definition set_item (f : Node → Node) (w : world) : world :=
  mkWorld (heap w) (f (item w)) (parents w) (finalizers w) (stdout w)
    (instances w).
Definition set_finalizers (f : list finalizer → list finalizer) (w : world) : world :=
  mkWorld (heap w) (item w) (parents w) (f (finalizers w)) (stdout w)
    (instances w).
Definition set_stdout (f : list string → list string) (w : world) : world :=
  mkWorld (heap w) (item w) (parents w) (finalizers w) (f (stdout w))
    (instances w).
Definition set_instances (f : gmap string pyval → gmap string pyval) (w : world)
  : world :=
  mkWorld (heap w) (item w) (parents w) (finalizers w) (stdout w)
    (f (instances w)).

(** ** The monad of Python statements *)

Inductive outcome (A : Type) :=
  | Ret (a : A)
  | Raise (e : exn).
Arguments Ret {A} a.
Arguments Raise {A} e.

Definition M (A : Type) : Type := world → outcome A * world.

Definition ret {A} (a : A) : M A := λ w, (Ret a, w).
Definition raise {A} (e : exn) : M A := λ w, (Raise e, w).
Definition bind {A B} (m : M A) (k : A → M B) : M B := λ w,
  match m w with
  | (Ret a, w') => k a w'
  | (Raise e, w') => (Raise e, w')
  end.

#[export] Instance M_ret : MRet M := @ret.
#[export] Instance M_bind : MBind M := λ A B k m, bind m k.

(** [try: m except Exception: h]: only instances of [Exception] are
    handled, anything else keeps propagating. *)
Definition try_except_Exception {A} (m : M A) (h : M A) : M A := λ w,
  match m w with
  | (Ret a, w') => (Ret a, w')
  | (Raise e, w') => if issubclass_Exception e then h w' else (Raise e, w')
  end.

Definition print (s : string) : M unit := λ w,
  (Ret tt, set_stdout (λ out, out ++ [s]) w).

(** ** Dictionaries on the heap *)

(** A dictionary display [{...}] allocates a new object. *)
Definition alloc_dict (d : dict) : M loc := λ w,
  let l := fresh (dom (heap w)) in
  (Ret l, set_heap <[l := d]> w).

Definition new_dict (d : dict) : M pyval :=
  l ← alloc_dict d; mret (VRef l).

(** Reading the dictionary behind a value.  A value that is no mapping makes
    Python raise [TypeError]; a reference to nothing cannot be built by a
    Python program and is answered with [SystemError]. *)
Definition deref (v : pyval) : M dict := λ w,
  match v with
  | VRef l =>
      match heap w !! l with
      | Some d => (Ret d, w)
      | None => (Raise (Exn SystemError "dangling reference"), w)
      end
  | _ => (Raise (Exn TypeError "object is not a mapping"), w)
  end.

(** [d[k]] *)
Definition dict_getitem (v : pyval) (k : string) : M pyval :=
  d ← deref v;
  match d !! k with
  | Some x => ret x
  | None => raise (Exn KeyError k)
  end.

(** [d[k] = x] *)
Definition dict_setitem (v : pyval) (k : string) (x : pyval) : M unit :=
  d ← deref v;
  match v with
  | VRef l => λ w, (Ret tt, set_heap <[l := <[k := x]> d]> w)
  | _ => ret tt
  end.

(** [del d[k]] *)
Definition dict_delitem (v : pyval) (k : string) : M unit :=
  d ← deref v;
  match d !! k, v with
  | Some _, VRef l => λ w, (Ret tt, set_heap <[l := delete k d]> w)
  | _, _ => raise (Exn KeyError k)
  end.

(** ** The request object *)

(** The attributes of [request] the module reads.  An attribute that exists
    only in some contexts ([param], which only a parametrized fixture has) is
    an [option]; [request.node] is the [item] of the world, since the module
    mutates it.  [getfixturevalue] is a method of the object: the framework
    supplies it when it builds the request (see [mk_request]). *)
Record request := mkRequest {
  param : option pyval;
  fixturename : string;
  scope : string;
  function__name__ : string;
  cls : option string;
  instance : option string;
  module__name__ : string;
  path : string;
  config_options : dict;
  config_rootdir : string;
  session : string;
  getfixturevalue : string → M pyval;
}.

(** Modelled from the spec: [request.addfinalizer], which is pytest's and not
    part of the module.  The finalizer queue is an ordered sequence of
    callbacks; registering appends to it. *)
Definition addfinalizer (f : finalizer) : M unit := λ w,
  (Ret tt, set_finalizers (λ q, q ++ [f]) w).

(** Modelled from the spec: [request.node.add_marker], which is pytest's.
    The marker is attached to the current node. *)
Definition add_marker (m : Mark) : M unit := λ w,
  (Ret tt,
   set_item
     (λ n, mkNode (node_name n) (own_markers n ++ [m])
             (extra_keyword_matches n) (callspec n))
     w).

(** The markers of the given name, walking from the node to its ancestors. *)
Definition iter_markers (name : string) (chain : list Node) : list Mark :=
  filter (λ m, mark_name m = name) (chain ≫= own_markers).

(** Modelled from the spec: [request.node.get_closest_marker], which is
    pytest's: the nearest marker by name walking from the node to its
    ancestors, [None] when there is none. *)
Definition get_closest_marker (name : string) : M (option Mark) := λ w,
  (Ret (head (iter_markers name (item w :: parents w))), w).

(** [request.node.name] *)
Definition request_node_name : M string := λ w, (Ret (node_name (item w)), w).

(** [request.node.callspec], an attribute only the item of a parametrized
    test has. *)
Definition request_node_callspec : M (option CallSpec) := λ w,
  (Ret (callspec (item w)), w).

(** Modelled from the spec: [request.node.listextrakeywords], which is
    pytest's: the extra keywords of the node and of its ancestors. *)
Definition listextrakeywords : M (list string) := λ w,
  (Ret ((item w :: parents w) ≫= extra_keyword_matches), w).

(** [request.config.getoption(name, default=d)] *)
Definition getoption (r : request) (name : string) (d : pyval) : pyval :=
  default d (config_options r !! name).

(** ** The fixtures of the module, from the source *)

Definition newline : string := String (Ascii.ascii_of_nat 10) EmptyString.

(** [str(v)], as an f-string formats a value.  Exact for [None], booleans,
    integers, strings and paths, among them everything the tests of the
    module print; a list or a dictionary, whose text is built from the
    [repr] of its contents, is abbreviated. *)
Definition py_str (v : pyval) : string :=
  match v with
  | VNone => "None"
  | VBool true => "True"
  | VBool false => "False"
  | VInt z => pretty z
  | VStr s => s
  | VPath p => p
  | VList _ => "[...]"
  | VRef _ => "{...}"
  end.

(** The local variables at the end of the body of
    [demonstrate_request_methods].  [param_value] is unbound ([None]) when the
    fixture is not parametrized.  The locals [test_func], [test_module],
    [file_path], [test_keywords], [test_node], [config] and [session] alias
    objects of the framework and are not kept. *)
Record demo_locals := mkDemoLocals {
  param_value : option pyval;
  fixture_name : string;
  fixture_scope : string;
  test_func_name : string;
  test_class : option string;
  test_instance : option string;
  test_module_name : string;
  module_path : string;
  test_node_name : string;
  verbosity : pyval;
  root_dir : string;
  tmp_path_value : pyval;
  skip_marker : option Mark;
  extra_keywords : list string;
  call_spec : option CallSpec;
  param_names : list string;
  param_values : dict;
}.

(** The body of [demonstrate_request_methods] up to its [return]. *)
Definition demonstrate_request_methods_locals (request : request)
  : M demo_locals :=
  let param_value := param request in
  let fixture_name := fixturename request in
  let fixture_scope := scope request in
  let test_func_name := function__name__ request in
  let test_class := cls request in
  let test_instance := instance request in
  let test_module_name := module__name__ request in
  let module_path := path request in
  test_node_name ← request_node_name;
  let verbosity := getoption request "--verbose" (VBool false) in
  let root_dir := config_rootdir request in
  addfinalizer cleanup_function;;
  add_marker
    (mkMark "xfail" [] [("reason", VStr "Demonstrating dynamic markers")]);;
  tmp_path_value ←
    try_except_Exception (getfixturevalue request "tmp_path") (ret VNone);
  skip_marker ← get_closest_marker "skip";
  extra_keywords ← listextrakeywords;
  call_spec ← request_node_callspec;
  let param_names :=
    match call_spec with
    | Some cs => default [] (metafunc_funcargnames cs)
    | None => []
    end in
  let param_values :=
    match call_spec with
    | Some cs => default ∅ (callspec_params cs)
    | None => ∅
    end in
  mret (mkDemoLocals param_value fixture_name fixture_scope test_func_name
          test_class test_instance test_module_name module_path
          test_node_name verbosity root_dir tmp_path_value skip_marker
          extra_keywords call_spec param_names param_values).

(** The fixture: the body, then the dictionary display it returns. *)
Definition demonstrate_request_methods (request : request) : M pyval :=
  l ← demonstrate_request_methods_locals request;
  new_dict (<["fixture_name" := VStr (fixture_name l)]>
           (<["fixture_scope" := VStr (fixture_scope l)]>
           (<["test_func_name" := VStr (test_func_name l)]>
           (<["test_module_name" := VStr (test_module_name l)]>
           (<["test_node_name" := VStr (test_node_name l)]> ∅))))).

(** [request.param]: the attribute is missing when the fixture is not
    parametrized. *)
Definition request_param (r : request) : M pyval :=
  match param r with
  | Some v => mret v
  | None => raise (Exn AttributeError "param")
  end.

Definition scenario_params : list pyval :=
  [VStr "scenario1"; VStr "scenario2"; VStr "scenario3"].

Definition scenario (request : request) : M pyval :=
  p ← request_param request;
  name ← request_node_name;
  new_dict (<["name" := p]>
           (<["fixture_name" := VStr (fixturename request)]>
           (<["test_name" := VStr name]> ∅))).

Definition fixture_user (_ : request) : M pyval :=
  new_dict (<["username" := VStr "testuser"]> (<["id" := VInt 123]> ∅)).

Definition advanced_fixture (request : request) : M pyval :=
  user ← getfixturevalue request "fixture_user";
  items ← deref user;
  new_dict (<["accessed_by" := VStr (fixturename request)]>
           (<["is_admin" := VBool false]> items)).

Definition mock_data_set : dict :=
  <["type" := VStr "mock"]>
  (<["data" := VList [VInt 1; VInt 2; VInt 3; VInt 4; VInt 5]]> ∅).
Definition real_data_set : dict :=
  <["type" := VStr "real"]>
  (<["data" := VList [VInt 10; VInt 20; VInt 30; VInt 40; VInt 50]]> ∅).
Definition default_data_set : dict :=
  <["type" := VStr "default"]>
  (<["data" := VList [VInt 0; VInt 0; VInt 0]]> ∅).

(** A [Mark] object is always true, so [if mock_marker:] tests whether the
    lookup found a marker. *)
Definition data_source (request : request) : M pyval :=
  mock_marker ← get_closest_marker "mock_data";
  if mock_marker is Some _ then new_dict mock_data_set else
  real_marker ← get_closest_marker "real_data";
  if real_marker is Some _ then new_dict real_data_set else
  new_dict default_data_set.

Definition managed_resource (request : request) : M pyval :=
  resource ← alloc_dict (<["name" := VStr "test_resource"]>
                         (<["status" := VStr "active"]> ∅));
  name ← dict_getitem (VRef resource) "name";
  print (newline ++ "Resource created: " ++ py_str name)%string;;
  addfinalizer (teardown resource);;
  mret (VRef resource).

(** The bodies of the two registered closures. *)
Definition run_finalizer (f : finalizer) : M unit :=
  match f with
  | cleanup_function => print "Cleaning up resources"
  | teardown resource =>
      dict_setitem (VRef resource) "status" (VStr "inactive");;
      name ← dict_getitem (VRef resource) "name";
      print (newline ++ "Resource released: " ++ py_str name)%string
  end.

(** ** The framework around the fixtures *)

(** What [@pytest.fixture] records about a fixture function. *)
Record fixturedef := mkFixtureDef {
  argname : string;
  fd_scope : string;
  fd_params : option (list pyval);
  func : request → M pyval;
}.

(** [@pytest.fixture] and [@pytest.fixture(params=...)]: the fixture is known
    under the name of the decorated function, and its scope is the default
    of the decorator, ["function"], since the module never passes one. *)
Definition pytest_fixture (params : option (list pyval)) (name : string)
    (f : request → M pyval) : fixturedef :=
  mkFixtureDef name "function" params f.

Definition demonstrate_request_methods_def : fixturedef :=
  pytest_fixture None "demonstrate_request_methods" demonstrate_request_methods.
Definition scenario_def : fixturedef :=
  pytest_fixture (Some scenario_params) "scenario" scenario.
Definition fixture_user_def : fixturedef :=
  pytest_fixture None "fixture_user" fixture_user.
Definition advanced_fixture_def : fixturedef :=
  pytest_fixture None "advanced_fixture" advanced_fixture.
Definition data_source_def : fixturedef :=
  pytest_fixture None "data_source" data_source.
Definition managed_resource_def : fixturedef :=
  pytest_fixture None "managed_resource" managed_resource.

(** The fixtures the module defines, in source order. *)
Definition module_fixtures : list fixturedef :=
  [ demonstrate_request_methods_def; scenario_def; fixture_user_def;
    advanced_fixture_def; data_source_def; managed_resource_def ].

(** One invocation of a test function of the module: the identifiers of the
    enclosing function, class and module, the configuration, and the
    fixtures that come from outside the module (conftest files and plugins,
    such as [tmp_path]). *)
Record invocation := mkInvocation {
  inv_function : string;
  inv_cls : option string;
  inv_instance : option string;
  inv_module : string;
  inv_path : string;
  inv_options : dict;
  inv_rootdir : string;
  inv_session : string;
  plugin_fixtures : string → option (M pyval);
}.

(** Modelled from the spec: the active parameter value of the fixture called
    [name], which pytest takes from the call specification of the item. *)
Definition item_param (name : string) (w : world) : option pyval :=
  cs ← callspec (item w); ps ← callspec_params cs; ps !! name.

(** Modelled from the spec: the request context pytest hands to a fixture
    function, scoped to one fixture instantiation and carrying the active
    parameter value (if parametrized), the requesting fixture's name and
    scope, and the enclosing test function, class and module identifiers. *)
Definition mk_request (fd : fixturedef) (inv : invocation)
    (p : option pyval) (resolver : string → M pyval) : request :=
  {| param := p;
     fixturename := argname fd;
     scope := fd_scope fd;
     function__name__ := inv_function inv;
     cls := inv_cls inv;
     instance := inv_instance inv;
     module__name__ := inv_module inv;
     path := inv_path inv;
     config_options := inv_options inv;
     config_rootdir := inv_rootdir inv;
     session := inv_session inv;
     getfixturevalue := resolver |}.

(** Modelled from the spec: calling the producer routine of a fixture
    definition.  A parametrized fixture reached by a test that supplies no
    parameter for it is refused by pytest with its [Failed] outcome. *)
Definition instantiate (resolver : string → M pyval) (inv : invocation)
    (fd : fixturedef) : M pyval := λ w,
  let request := mk_request fd inv (item_param (argname fd) w) resolver in
  match fd_params fd, param request with
  | Some _, None =>
      raise (Exn Failed "The requested fixture has no parameter defined for test")
        w
  | _, _ => func fd request w
  end.

Definition find_fixture (name : string) : option fixturedef :=
  snd <$> list_find (λ fd, argname fd = name) module_fixtures.

(** Modelled from the spec: a fixture is instantiated at most once per
    scope, and the instance is created on the first request within the
    window of the scope.  All fixtures the module looks up have function
    scope, whose window is the running test: a request for [name] is
    answered with the instance the test already has, and [create] runs,
    and its value is kept, only when there is none. *)
Definition cached (name : string) (create : M pyval) : M pyval := λ w,
  match instances w !! name with
  | Some v => (Ret v, w)
  | None =>
      match create w with
      | (Ret v, w') => (Ret v, set_instances <[name := v]> w')
      | (Raise e, w') => (Raise e, w')
      end
  end.

(** Modelled from the spec: [request.getfixturevalue], which is pytest's:
    fetch another fixture's value by name, failing if that fixture cannot be
    resolved in the current context.  The instance is made on the first
    request and handed out again on every later one ([cached]).  A fixture
    of the module shadows one of the same name from outside.  [depth] bounds
    the nesting of lookups made by the fixtures being fetched, and a chain
    of lookups longer than that is answered with the lookup error pytest
    gives a recursive dependency; the fixtures of the module nest once. *)
Fixpoint getfixturevalue_at (depth : nat) (inv : invocation) (name : string)
  : M pyval :=
  cached name
    match find_fixture name with
    | Some fd =>
        match depth with
        | O => raise (Exn FixtureLookupError name)
        | S d => instantiate (getfixturevalue_at d inv) inv fd
        end
    | None =>
        match plugin_fixtures inv name with
        | Some m => m
        | None => raise (Exn FixtureLookupError name)
        end
    end.

(** Setting up the fixture a test asks for by parameter name: the framework
    builds the request and calls the producer routine.  Every test of the
    module asks for one fixture, before any lookup by name is made, so that
    this is the request that creates the instance. *)
Definition setup (depth : nat) (inv : invocation) (fd : fixturedef) : M pyval :=
  instantiate (getfixturevalue_at depth inv) inv fd.

(** The record of one finalizer call: the callback and how it ended. *)
Abbreviation call := (finalizer * outcome unit)%type.

(** Modelled from the spec: running the finalizer queue, which is pytest's.
    The callbacks are taken from the end of the queue, so in reverse order of
    registration, each is removed as it is taken, and a callback that raises
    does not stop the ones before it.  [fuel] bounds the iterations. *)
Fixpoint finish_loop (fuel : nat) (calls : list call) : M (list call) := λ w,
  match fuel with
  | O => (Ret calls, w)
  | S fuel' =>
      match last (finalizers w) with
      | None => (Ret calls, w)
      | Some fin =>
          let w1 := set_finalizers (λ q, removelast q) w in
          let '(o, w2) := run_finalizer fin w1 in
          finish_loop fuel' (calls ++ [(fin, o)]) w2
      end
  end.

(** Modelled from the spec: the window of the function scope closes at the
    end of the test; the finalizers run and the instances are destroyed. *)
Definition finish : M (list call) := λ w,
  let '(o, w') := finish_loop (length (finalizers w)) [] w in
  (o, set_instances (λ _, ∅) w').

(** Modelled from the spec: the life of a function-scoped fixture.  The
    instance is created when the test asks for it, the test body runs with
    its value, and the finalizers run when the test ends, also when the
    fixture or the body raised. *)
Definition run_test {A} (fixture : M A) (body : A → M unit)
  : M (outcome unit * list call) := λ w,
  let '(o, w1) := fixture w in
  let '(ob, w2) :=
    match o with
    | Ret v => body v w1
    | Raise e => (Raise e, w1)
    end in
  let '(oc, w3) := finish w2 in
  (match oc with
   | Ret calls => Ret (ob, calls)
   | Raise e => Raise e
   end, w3).

(** Modelled from the spec: parametrization produces one test invocation per
    declared value, each with its own node, named after the value. *)
Definition with_param (fd : fixturedef) (p : pyval) (w : world) : world :=
  set_item
    (λ n, mkNode (node_name n ++ "[" ++ py_str p ++ "]")%string (own_markers n)
            (extra_keyword_matches n)
            (Some (mkCallSpec None (Some {[argname fd := p]}))))
    w.

Definition sweep (fd : fixturedef) (w : world) : list world :=
  match fd_params fd with
  | None => [w]
  | Some ps => (λ p, with_param fd p w) <$> ps
  end.

(** ** Comparison and membership *)

Definition AssertionError : exn := Exn (OtherException "AssertionError") "".

(** The constants the tests compare with. *)
#[warnings="-register-all"]
Inductive literal :=
  | LNone
  | LBool (b : bool)
  | LInt (z : Z)
  | LStr (s : string)
  | LList (xs : list literal).

(** [y == x] for a value and a constant: [bool] is a subclass of [int], so
    [True == 1]; values of different kinds are otherwise unequal, and lists
    are equal when they have the same length and equal elements. *)
Fixpoint py_eq (y : pyval) (x : literal) {struct y} : bool :=
  match y, x with
  | VNone, LNone => true
  | VBool a, LBool b => bool_decide (a = b)
  | VBool a, LInt z | VInt z, LBool a => bool_decide (z = if a then 1 else 0)
  | VInt a, LInt b => bool_decide (a = b)
  | VStr a, LStr b => bool_decide (a = b)
  | VList ys, LList xs =>
      (fix go (ys : list pyval) (xs : list literal) {struct ys} : bool :=
         match ys, xs with
         | [], [] => true
         | y' :: ys', x' :: xs' => py_eq y' x' && go ys' xs'
         | _, _ => false
         end) ys xs
  | _, _ => false
  end.

(** [sub in s] for two strings. *)
Fixpoint contains (sub s : string) : bool :=
  String.prefix sub s ||
  match s with
  | EmptyString => false
  | String _ s' => contains sub s'
  end.

(** [assert b] *)
Definition check (b : bool) : M unit :=
  if b then mret tt else raise AssertionError.

(** [sub in y] when [sub] is a string: a substring test on a string, a
    membership test on a list, a key test on a dictionary; other values are
    not iterable. *)
Definition py_in (sub : string) (y : pyval) : M bool :=
  match y with
  | VStr s => mret (contains sub s)
  | VList ys => mret (existsb (λ y', py_eq y' (LStr sub)) ys)
  | VRef _ => items ← deref y; mret (bool_decide (is_Some (items !! sub)))
  | _ => raise (Exn TypeError "argument is not iterable")
  end.

(** ** Test bodies working on a dictionary *)

(** The statements of a test body that works on the value [d] a fixture
    gave it: [d[k] = x], [del d[k]], [assert d[k] == x] for a constant [x],
    [assert k in d]. *)
Inductive stmt :=
  | SetItem (k : string) (x : pyval)
  | DelItem (k : string)
  | AssertEq (k : string) (x : literal)
  | AssertIn (k : string).

#[export] Instance pyval_eq_dec : EqDecision pyval.
Proof.
  refine (fix go (x y : pyval) {struct x} : Decision (x = y) :=
    match x, y with
    | VNone, VNone => left _
    | VBool a, VBool b => cast_if (decide (a = b))
    | VInt a, VInt b => cast_if (decide (a = b))
    | VStr a, VStr b => cast_if (decide (a = b))
    | VPath a, VPath b => cast_if (decide (a = b))
    | VList a, VList b => cast_if (@list_eq_dec _ go a b)
    | VRef a, VRef b => cast_if (decide (a = b))
    | _, _ => right _
    end); abstract congruence.
Defined.

Definition exec_stmt (d : pyval) (s : stmt) : M unit :=
  match s with
  | SetItem k x => dict_setitem d k x
  | DelItem k => dict_delitem d k
  | AssertEq k x => y ← dict_getitem d k; check (py_eq y x)
  | AssertIn k => b ← py_in k d; check b
  end.

Fixpoint exec_body (d : pyval) (ss : list stmt) : M unit :=
  match ss with
  | [] => mret tt
  | s :: ss' => exec_stmt d s;; exec_body d ss'
  end.

(** The worlds a body goes through: the one it starts in and the one after
    each statement it executes, up to and including one that raises. *)
Fixpoint body_trace (d : pyval) (ss : list stmt) (w : world) : list world :=
  w :: match ss with
       | [] => []
       | s :: ss' =>
           match exec_stmt d s w with
           | (Ret _, w') => body_trace d ss' w'
           | (Raise _, w') => [w']
           end
       end.

(** The key a statement writes or removes, if any. *)
Definition written_key (s : stmt) : option string :=
  match s with
  | SetItem k _ | DelItem k => Some k
  | AssertEq _ _ | AssertIn _ => None
  end.

(** The body of [test_managed_resource]. *)
Definition test_managed_resource : list stmt :=
  [ AssertEq "status" (LStr "active");
    SetItem "data" (VStr "test data");
    AssertIn "data" ].

(** ** Observations used in the statements *)

(** A marker of the given name is attached to the running test: to its node
    or to one of the node's ancestors. *)
Definition marked (name : string) (w : world) : Prop :=
  ∃ n m, n ∈ item w :: parents w ∧ m ∈ own_markers n ∧ mark_name m = name.

(** [m], run in [w], returns a reference to a dictionary it has just built,
    with contents [d], and changes nothing else. *)
Definition returns_new_dict (m : M pyval) (w : world) (d : dict) : Prop :=
  ∃ l, heap w !! l = None ∧ m w = (Ret (VRef l), set_heap <[l := d]> w).

(** The value stored under key [k] of the dictionary at [l]. *)
Definition field (w : world) (l : loc) (k : string) : option pyval :=
  d ← heap w !! l; d !! k.

(** ** The tests of the module as concrete inputs *)

(** An invocation of a test function of the module, collected at module
    level, with [tmp_path] supplied from outside as pytest does. *)
Definition module_invocation (test : string) : invocation :=
  mkInvocation test None None "request_fixture" "src/request_fixture.py"
    ∅ "." "session"
    (λ name, if decide (name = "tmp_path")
             then Some (mret (VPath "/tmp/pytest-0/test0")) else None).

(** The world such a test starts in: the item carries the markers of the
    decorators of the test function, the module node carries none. *)
Definition module_world (test : string) (marks : list string) : world :=
  mkWorld ∅ (mkNode test ((λ n, mkMark n [] []) <$> marks) [] None)
    [mkNode "request_fixture.py" [] [] None] [] [] ∅.

(** A test that carries [real_data] itself while [mock_data] sits on an
    ancestor, so that [real_data] is the nearer of the two. *)
Definition world_real_nearer : world :=
  mkWorld ∅ (mkNode "test_both" [mkMark "real_data" [] []] [] None)
    [mkNode "request_fixture.py" [mkMark "mock_data" [] []] [] None] [] [] ∅.

(** The dictionary [managed_resource] creates. *)
Definition fresh_resource : dict :=
  <["name" := VStr "test_resource"]> (<["status" := VStr "active"]> ∅).

(** The name a parametrized test observes: [scenario["name"]] after setting
    up [scenario] in the given invocation. *)
Definition observed_name (depth : nat) (inv : invocation) (w : world)
  : option pyval :=
  match setup depth inv scenario_def w with
  | (Ret (VRef l), w') => field w' l "name"
  | _ => None
  end.

(** A fixture body that registers the callbacks [fs] in order and then
    ends with [result]: a value, or an exception raised after registering. *)
Fixpoint registering (fs : list finalizer) (result : outcome pyval) : M pyval :=
  match fs with
  | [] => λ w, (result, w)
  | f :: fs' => addfinalizer f;; registering fs' result
  end.

(** The request of [r] with another [getfixturevalue]. *)
Definition with_resolver (g : string → M pyval) (r : request) : request :=
  mkRequest (param r) (fixturename r) (scope r) (function__name__ r) (cls r)
    (instance r) (module__name__ r) (path r)
    (config_options r) (config_rootdir r) (session r) g.

(** The world in which [demonstrate_request_methods] looks [tmp_path] up:
    its finalizer is registered and the [xfail] marker is attached. *)
Definition before_tmp_path_lookup (w : world) : world :=
  set_item
    (λ n, mkNode (node_name n)
            (own_markers n ++
             [mkMark "xfail" [] [("reason", VStr "Demonstrating dynamic markers")]])
            (extra_keyword_matches n) (callspec n))
    (set_finalizers (λ q, q ++ [cleanup_function]) w).

(** An invocation in which setting [tmp_path] up is interrupted from the
    keyboard. *)
Definition interrupted_invocation : invocation :=
  mkInvocation "test_request_methods" None None "request_fixture"
    "src/request_fixture.py" ∅ "." "session"
    (λ name, if decide (name = "tmp_path")
             then Some (raise (Exn KeyboardInterrupt "")) else None).

(** An invocation in which no [tmp_path] fixture is available. *)
Definition bare_invocation : invocation :=
  mkInvocation "test_request_methods" None None "request_fixture"
    "src/request_fixture.py" ∅ "." "session" (λ _, None).

(** What [managed_resource] prints when it has created the resource. *)
Definition resource_created : string :=
  (newline ++ "Resource created: test_resource")%string.

(** The world [test_managed_resource] leaves behind when its body is over:
    the resource, with the field the body added, and the teardown still
    registered. *)
Definition world_after_body : world :=
  mkWorld {[ 1%positive := <["data" := VStr "test data"]> fresh_resource ]}
    (mkNode "test_managed_resource" [] [] None)
    [mkNode "request_fixture.py" [] [] None]
    [teardown 1] [resource_created] ∅.

(** The dictionary [fixture_user] returns. *)
Definition user_record : dict :=
  <["username" := VStr "testuser"]> (<["id" := VInt 123]> ∅).

(** The test has no instance of [fixture_user] yet, or has one that still
    holds the [username] and the [id] it was created with. *)
Definition fixture_user_as_created (w : world) : Prop :=
  match instances w !! "fixture_user" with
  | None => True
  | Some u =>
      ∃ lu, u = VRef lu ∧
        field w lu "username" = Some (VStr "testuser") ∧
        field w lu "id" = Some (VInt 123)
  end.

(** A fixture from outside the module, as a [conftest.py] next to it can
    define one: it fetches [fixture_user] and changes its [username].
    [[
    @pytest.fixture
    def rename_user(request):
        user = request.getfixturevalue("fixture_user")
        user["username"] = "renamed"
    ]] *)
Definition rename_user (resolver : string → M pyval) : M pyval :=
  user ← resolver "fixture_user";
  dict_setitem user "username" (VStr "renamed");;
  mret VNone.

(** An invocation of a test [test_renamed(rename_user, advanced_fixture)] of
    the module, with [rename_user] supplied from outside. *)
Definition renaming_invocation : invocation :=
  mkInvocation "test_renamed" None None "request_fixture"
    "src/request_fixture.py" ∅ "." "session"
    (λ name,
       if decide (name = "rename_user")
       then Some (rename_user
                    (getfixturevalue_at 1
                       (mkInvocation "test_renamed" None None "request_fixture"
                          "src/request_fixture.py" ∅ "." "session" (λ _, None))))
       else None).

(** A world in which the test already has an instance of [fixture_user]. *)
Definition world_with_user : world :=
  mkWorld {[ 1%positive := user_record ]}
    (mkNode "test_getfixturevalue" [] [] None)
    [mkNode "request_fixture.py" [] [] None] [] []
    {[ "fixture_user" := VRef 1 ]}.

(** What [advanced_fixture] makes of the dictionary [v] it fetched. *)
Definition extended (v : dict) : dict :=
  <["accessed_by" := VStr "advanced_fixture"]> (<["is_admin" := VBool false]> v).

(** A computation whose failures an [except Exception:] clause catches. *)
Definition recoverable {A} (m : M A) : Prop :=
  ∀ w e w', m w = (Raise e, w') → issubclass_Exception e = true.

(** The observations of one parameter sweep of [test_parameterized_fixture]. *)
Definition observations (depth : nat) (inv : invocation) (w : world)
  : list (option pyval) :=
  observed_name depth inv <$> sweep scenario_def w.

(** ** The assertions of the test functions *)

(** The forms of [assert] in the tests that only read the dictionary [d] a
    fixture gave them: [d[k] == x], [d[k] is False], [d[k] in [x1, ...]],
    [sub in d[k]] and [d[k].startswith(prefix)]. *)
Inductive assertion :=
  | ItemEq (k : string) (x : literal)
  | ItemIsFalse (k : string)
  | ItemAmong (k : string) (xs : list literal)
  | ItemContains (sub : string) (k : string)
  | ItemStartsWith (k : string) (prefix : string).

(** [y.startswith(prefix)]: only a string has the method. *)
Definition py_startswith (y : pyval) (prefix : string) : M bool :=
  match y with
  | VStr s => mret (String.prefix prefix s)
  | _ => raise (Exn AttributeError "startswith")
  end.

Definition run_assertion (d : pyval) (a : assertion) : M unit :=
  match a with
  | ItemEq k x => y ← dict_getitem d k; check (py_eq y x)
  | ItemIsFalse k => y ← dict_getitem d k; check (bool_decide (y = VBool false))
  | ItemAmong k xs => y ← dict_getitem d k; check (existsb (py_eq y) xs)
  | ItemContains sub k => y ← dict_getitem d k; b ← py_in sub y; check b
  | ItemStartsWith k prefix =>
      y ← dict_getitem d k; b ← py_startswith y prefix; check b
  end.

Fixpoint run_assertions (d : pyval) (body : list assertion) : M unit :=
  match body with
  | [] => mret tt
  | a :: body' => run_assertion d a;; run_assertions d body'
  end.

(** The bodies of the tests of the module that only assert. *)
Definition test_request_methods : list assertion :=
  [ ItemEq "fixture_name" (LStr "demonstrate_request_methods");
    ItemAmong "fixture_scope"
      [LStr "function"; LStr "class"; LStr "module"; LStr "session"];
    ItemEq "test_func_name" (LStr "test_request_methods");
    ItemContains "test_" "test_module_name";
    ItemEq "test_node_name" (LStr "test_request_methods") ].

Definition test_parameterized_fixture : list assertion :=
  [ ItemAmong "name" [LStr "scenario1"; LStr "scenario2"; LStr "scenario3"];
    ItemEq "fixture_name" (LStr "scenario");
    ItemStartsWith "test_name" "test_parameterized_fixture" ].

Definition test_getfixturevalue : list assertion :=
  [ ItemEq "username" (LStr "testuser");
    ItemEq "id" (LInt 123);
    ItemIsFalse "is_admin";
    ItemEq "accessed_by" (LStr "advanced_fixture") ].

Definition test_with_mock_data : list assertion :=
  [ ItemEq "type" (LStr "mock");
    ItemEq "data" (LList [LInt 1; LInt 2; LInt 3; LInt 4; LInt 5]) ].

Definition test_with_real_data : list assertion :=
  [ ItemEq "type" (LStr "real");
    ItemEq "data" (LList [LInt 10; LInt 20; LInt 30; LInt 40; LInt 50]) ].

Definition test_with_default_data : list assertion :=
  [ ItemEq "type" (LStr "default");
    ItemEq "data" (LList [LInt 0; LInt 0; LInt 0]) ].

(** How an [assert] on a condition ends. *)
Definition verdict (b : bool) : outcome unit :=
  if b then Ret tt else Raise AssertionError.

(** How one assertion ends on the dictionary [d], in the heap [h]. *)
Definition eval_assertion (h : gmap loc dict) (d : dict) (a : assertion)
  : outcome unit :=
  match a with
  | ItemEq k x =>
      match d !! k with
      | Some y => verdict (py_eq y x)
      | None => Raise (Exn KeyError k)
      end
  | ItemIsFalse k =>
      match d !! k with
      | Some y => verdict (bool_decide (y = VBool false))
      | None => Raise (Exn KeyError k)
      end
  | ItemAmong k xs =>
      match d !! k with
      | Some y => verdict (existsb (py_eq y) xs)
      | None => Raise (Exn KeyError k)
      end
  | ItemContains sub k =>
      match d !! k with
      | Some (VStr s) => verdict (contains sub s)
      | Some (VList ys) => verdict (existsb (λ y', py_eq y' (LStr sub)) ys)
      | Some (VRef l) =>
          match h !! l with
          | Some items => verdict (bool_decide (is_Some (items !! sub)))
          | None => Raise (Exn SystemError "dangling reference")
          end
      | Some _ => Raise (Exn TypeError "argument is not iterable")
      | None => Raise (Exn KeyError k)
      end
  | ItemStartsWith k prefix =>
      match d !! k with
      | Some (VStr s) => verdict (String.prefix prefix s)
      | Some _ => Raise (Exn AttributeError "startswith")
      | None => Raise (Exn KeyError k)
      end
  end.

(** How a body of assertions ends: as its first assertion that does not
    hold, or well. *)
Fixpoint eval_assertions (h : gmap loc dict) (d : dict) (body : list assertion)
  : outcome unit :=
  match body with
  | [] => Ret tt
  | a :: body' =>
      match eval_assertion h d a with
      | Ret _ => eval_assertions h d body'
      | Raise e => Raise e
      end
  end.

(** The dictionary [demonstrate_request_methods] returns for a test function
    [f] of module [m] whose node is called [n]. *)
Definition request_report (f m n : string) : dict :=
  <["fixture_name" := VStr "demonstrate_request_methods"]>
  (<["fixture_scope" := VStr "function"]>
  (<["test_func_name" := VStr f]>
  (<["test_module_name" := VStr m]>
  (<["test_node_name" := VStr n]> ∅)))).

(** The marker [demonstrate_request_methods] attaches to the test. *)
Definition xfail_marker : Mark :=
  mkMark "xfail" [] [("reason", VStr "Demonstrating dynamic markers")].

(** The dictionary [scenario] returns for the parameter [p] in a test whose
    node is called [n]. *)
Definition scenario_record (p : pyval) (n : string) : dict :=
  <["name" := p]>
  (<["fixture_name" := VStr "scenario"]> (<["test_name" := VStr n]> ∅)).

(** What the teardown of [managed_resource] prints for a resource that has
    kept its name. *)
Definition resource_released : string :=
  (newline ++ "Resource released: test_resource")%string.

(** The resource as [test_managed_resource] leaves it when the test is
    over. *)
Definition released_resource : dict :=
  <["status" := VStr "inactive"]>
    (<["data" := VStr "test data"]> fresh_resource).

(** * Properties *)

(** ** Generic facts about the monad and the heap *)

Lemma bind_Ret {A B} (m : M A) (k : A → M B) w a w' :
  m w = (Ret a, w') → (m ≫= k) w = k a w'.
Proof. intros E. unfold mbind, M_bind, bind. by rewrite E. Qed.

Lemma bind_Raise {A B} (m : M A) (k : A → M B) w e w' :
  m w = (Raise e, w') → (m ≫= k) w = (Raise e, w').
Proof. intros E. unfold mbind, M_bind, bind. by rewrite E. Qed.

(** Run the first statement of a sequence when it returns by computation. *)
Ltac run_stmt := erewrite bind_Ret; [|reflexivity].

Lemma check_runs b w : check b w = (verdict b, w).
Proof. by destruct b. Qed.

(** ** The instances of a test *)

Lemma cached_hit name create w v :
  instances w !! name = Some v → cached name create w = (Ret v, w).
Proof. intros H. unfold cached. by rewrite H. Qed.

Lemma cached_miss name create w v w' :
  instances w !! name = None → create w = (Ret v, w') →
  cached name create w = (Ret v, set_instances <[name := v]> w').
Proof. intros H E. unfold cached. by rewrite H, E. Qed.

Lemma cached_Raise name create w e w' :
  cached name create w = (Raise e, w') → create w = (Raise e, w').
Proof.
  unfold cached. destruct (instances w !! name); [done|].
  by destruct (create w) as [[v|e'] w1]; intros [= <- <-].
Qed.

Lemma alloc_dict_fresh d w :
  ∃ l, heap w !! l = None ∧ alloc_dict d w = (Ret l, set_heap <[l := d]> w).
Proof.
  exists (fresh (dom (heap w))). split; [|done].
  apply not_elem_of_dom, is_fresh.
Qed.

Lemma new_dict_returns d w : returns_new_dict (new_dict d) w d.
Proof.
  destruct (alloc_dict_fresh d w) as (l & Hl & E).
  exists l. split; [done|]. unfold new_dict. by rewrite (bind_Ret _ _ _ _ _ E).
Qed.

Lemma returns_new_dict_inj m w d1 d2 :
  returns_new_dict m w d1 → returns_new_dict m w d2 → d1 = d2.
Proof.
  intros (l1 & _ & E1) (l2 & _ & E2). rewrite E1 in E2.
  injection E2 as -> Hh.
  apply (f_equal (.!! l2)) in Hh. rewrite !lookup_insert_eq in Hh. congruence.
Qed.

(** ** Markers *)

Lemma closest_marker_marked name w :
  is_Some (head (iter_markers name (item w :: parents w))) ↔ marked name w.
Proof.
  rewrite head_is_Some. unfold marked, iter_markers. split.
  - intros Hne.
    destruct (filter _ _) as [|m ms] eqn:E; [done|].
    assert (Hm : m ∈ filter (λ m, mark_name m = name)
                   ((item w :: parents w) ≫= own_markers))
      by (rewrite E; left).
    apply list_elem_of_filter in Hm as [Hname Hm].
    apply list_elem_of_bind in Hm as (n & Hm & Hn). eauto.
  - intros (n & m & Hn & Hm & Hname) E.
    eapply filter_nil_not_elem_of; [exact E|exact Hname|].
    apply list_elem_of_bind. eauto.
Qed.

Lemma closest_marker_unmarked name w :
  ¬ marked name w → head (iter_markers name (item w :: parents w)) = None.
Proof.
  intros H. destruct (head _) eqn:E; [|done].
  destruct H. apply closest_marker_marked. by rewrite E.
Qed.

(** ** [data_source]: the three branches *)

Lemma data_source_mock r w :
  marked "mock_data" w → data_source r w = new_dict mock_data_set w.
Proof.
  intros [m E]%closest_marker_marked. unfold data_source.
  run_stmt. by rewrite E.
Qed.

Lemma data_source_real r w :
  ¬ marked "mock_data" w → marked "real_data" w →
  data_source r w = new_dict real_data_set w.
Proof.
  intros E1%closest_marker_unmarked [m E2]%closest_marker_marked.
  unfold data_source.
  run_stmt. rewrite E1.
  run_stmt. by rewrite E2.
Qed.

Lemma data_source_default r w :
  ¬ marked "mock_data" w → ¬ marked "real_data" w →
  data_source r w = new_dict default_data_set w.
Proof.
  intros E1%closest_marker_unmarked E2%closest_marker_unmarked.
  unfold data_source.
  run_stmt. rewrite E1.
  run_stmt. by rewrite E2.
Qed.

Lemma setup_data_source depth inv w :
  setup depth inv data_source_def w
  = data_source
      (mk_request data_source_def inv (item_param "data_source" w)
         (getfixturevalue_at depth inv)) w.
Proof. reflexivity. Qed.

(** C1 (as amended): for every test requesting [data_source], the fixture
    returns the mock data set when a [mock_data] marker is present, the real
    data set when a [real_data] marker is present and no [mock_data] marker
    is, and the default data set when neither is present. *)
Theorem data_source_by_marker depth inv w :
  (marked "mock_data" w →
     returns_new_dict (setup depth inv data_source_def) w mock_data_set) ∧
  (¬ marked "mock_data" w → marked "real_data" w →
     returns_new_dict (setup depth inv data_source_def) w real_data_set) ∧
  (¬ marked "mock_data" w → ¬ marked "real_data" w →
     returns_new_dict (setup depth inv data_source_def) w default_data_set).
Proof.
  unfold returns_new_dict. rewrite setup_data_source. repeat split.
  - intros H. unfold returns_new_dict. rewrite data_source_mock by done.
    apply new_dict_returns.
  - intros H1 H2. unfold returns_new_dict. rewrite data_source_real by done.
    apply new_dict_returns.
  - intros H1 H2. unfold returns_new_dict. rewrite data_source_default by done.
    apply new_dict_returns.
Qed.

Lemma marked_item name w m :
  m ∈ own_markers (item w) → mark_name m = name → marked name w.
Proof. intros Hm Hn. exists (item w), m. split; [left|done]. Qed.

Lemma marked_parent name w n m :
  n ∈ parents w → m ∈ own_markers n → mark_name m = name → marked name w.
Proof. intros Hp Hm Hn. exists n, m. split; [by right|done]. Qed.

Lemma real_nearer_marked_mock : marked "mock_data" world_real_nearer.
Proof.
  eapply marked_parent; [left | simpl; left | reflexivity].
Qed.

Lemma real_nearer_marked_real : marked "real_data" world_real_nearer.
Proof. eapply marked_item; [simpl; left | reflexivity]. Qed.

Lemma mock_is_not_real : mock_data_set ≠ real_data_set.
Proof.
  intros E. apply (f_equal (.!! "type")) in E. vm_compute in E. discriminate.
Qed.

(** C1 (as stated) fails: a test that carries a [real_data] marker, and a
    [mock_data] marker on an ancestor, does not get the real data set. *)
Lemma data_source_real_marker_not_enough :
  marked "real_data" world_real_nearer ∧
  ¬ returns_new_dict
      (setup 1 (module_invocation "test_both") data_source_def)
      world_real_nearer real_data_set.
Proof.
  split; [exact real_nearer_marked_real|]. intros Hreal.
  apply mock_is_not_real.
  eapply returns_new_dict_inj; [|exact Hreal].
  unfold returns_new_dict. rewrite setup_data_source.
  rewrite data_source_mock by exact real_nearer_marked_mock.
  apply new_dict_returns.
Qed.

(** The three tests of the source, [test_with_mock_data],
    [test_with_real_data] and [test_with_default_data], as instances. *)
Lemma data_source_by_marker_witness :
  returns_new_dict
    (setup 1 (module_invocation "test_with_mock_data") data_source_def)
    (module_world "test_with_mock_data" ["mock_data"]) mock_data_set ∧
  returns_new_dict
    (setup 1 (module_invocation "test_with_real_data") data_source_def)
    (module_world "test_with_real_data" ["real_data"]) real_data_set ∧
  returns_new_dict
    (setup 1 (module_invocation "test_with_default_data") data_source_def)
    (module_world "test_with_default_data" []) default_data_set.
Proof.
  assert (Hno : ∀ name test marks,
            name ∉ marks → ¬ marked name (module_world test marks)).
  { intros name test marks Hn (n & m & Hin & Hm & Hname). simpl in Hin.
    apply elem_of_cons in Hin as [->|Hin].
    - simpl in Hm. apply list_elem_of_fmap in Hm as (x & -> & Hx).
      simpl in Hname. by subst.
    - apply list_elem_of_singleton in Hin as ->. simpl in Hm. inversion Hm. }
  split; [|split].
  - apply (data_source_by_marker 1 (module_invocation "test_with_mock_data")
             (module_world "test_with_mock_data" ["mock_data"])).
    eapply marked_item; [simpl; left | reflexivity].
  - apply (data_source_by_marker 1 (module_invocation "test_with_real_data")
             (module_world "test_with_real_data" ["real_data"])).
    + apply Hno. by intros ?%list_elem_of_singleton.
    + eapply marked_item; [simpl; left | reflexivity].
  - apply (data_source_by_marker 1 (module_invocation "test_with_default_data")
             (module_world "test_with_default_data" [])).
    + apply Hno, not_elem_of_nil.
    + apply Hno, not_elem_of_nil.
Defined.

(** C8: for every test on which both a [mock_data] and a [real_data] marker
    are present, [data_source] returns the mock data set, wherever on the
    chain from the node to its ancestors the two markers sit. *)
Theorem data_source_mock_priority depth inv w :
  marked "mock_data" w → marked "real_data" w →
  returns_new_dict (setup depth inv data_source_def) w mock_data_set.
Proof.
  intros Hmock _. unfold returns_new_dict. rewrite setup_data_source.
  rewrite data_source_mock by done. apply new_dict_returns.
Qed.

(** The instance where [real_data] is the nearer marker. *)
Lemma data_source_mock_priority_witness :
  returns_new_dict
    (setup 1 (module_invocation "test_both") data_source_def)
    world_real_nearer mock_data_set.
Proof.
  apply (data_source_mock_priority 1 (module_invocation "test_both")
           world_real_nearer).
  - exact real_nearer_marked_mock.
  - exact real_nearer_marked_real.
Defined.

(** ** Dictionary operations on an allocated reference *)

Lemma deref_ref l d w : heap w !! l = Some d → deref (VRef l) w = (Ret d, w).
Proof. intros H. unfold deref. by rewrite H. Qed.

Lemma dict_getitem_Some l d k x w :
  heap w !! l = Some d → d !! k = Some x →
  dict_getitem (VRef l) k w = (Ret x, w).
Proof.
  intros Hl Hk. unfold dict_getitem.
  rewrite (bind_Ret _ _ _ _ _ (deref_ref _ _ _ Hl)). by rewrite Hk.
Qed.

Lemma dict_getitem_None l d k w :
  heap w !! l = Some d → d !! k = None →
  dict_getitem (VRef l) k w = (Raise (Exn KeyError k), w).
Proof.
  intros Hl Hk. unfold dict_getitem.
  rewrite (bind_Ret _ _ _ _ _ (deref_ref _ _ _ Hl)). by rewrite Hk.
Qed.

Lemma dict_setitem_ref l d k x w :
  heap w !! l = Some d →
  dict_setitem (VRef l) k x w = (Ret tt, set_heap <[l := <[k := x]> d]> w).
Proof.
  intros Hl. unfold dict_setitem.
  by rewrite (bind_Ret _ _ _ _ _ (deref_ref _ _ _ Hl)).
Qed.

Lemma dict_delitem_Some l d k x w :
  heap w !! l = Some d → d !! k = Some x →
  dict_delitem (VRef l) k w = (Ret tt, set_heap <[l := delete k d]> w).
Proof.
  intros Hl Hk. unfold dict_delitem.
  rewrite (bind_Ret _ _ _ _ _ (deref_ref _ _ _ Hl)). by rewrite Hk.
Qed.

Lemma dict_delitem_None l d k w :
  heap w !! l = Some d → d !! k = None →
  dict_delitem (VRef l) k w = (Raise (Exn KeyError k), w).
Proof.
  intros Hl Hk. unfold dict_delitem.
  rewrite (bind_Ret _ _ _ _ _ (deref_ref _ _ _ Hl)). by rewrite Hk.
Qed.

Lemma py_in_ref l d k w :
  heap w !! l = Some d →
  py_in k (VRef l) w = (Ret (bool_decide (is_Some (d !! k))), w).
Proof.
  intros Hl. unfold py_in. by rewrite (bind_Ret _ _ _ _ _ (deref_ref _ _ _ Hl)).
Qed.

Lemma field_insert_heap w l d k :
  field (set_heap <[l := d]> w) l k = d !! k.
Proof. unfold field. simpl. by rewrite lookup_insert_eq. Qed.

(** ** What a statement of a test body can change *)

(** A statement leaves the finalizer queue alone, and leaves alone every
    field of the dictionary it does not write. *)
Lemma exec_stmt_frame l s w o w' k :
  exec_stmt (VRef l) s w = (o, w') →
  is_Some (heap w !! l) →
  written_key s ≠ Some k →
  finalizers w' = finalizers w ∧ is_Some (heap w' !! l) ∧
  field w' l k = field w l k.
Proof.
  intros E [d Hd] Hk. destruct s as [k' x|k'|k' x|k']; cbn [exec_stmt] in E.
  - rewrite (dict_setitem_ref _ _ _ _ _ Hd) in E. injection E as <- <-.
    split; [done|]. split; [simpl; rewrite lookup_insert_eq; eauto|].
    rewrite field_insert_heap. unfold field. rewrite Hd. simpl.
    apply lookup_insert_ne. intros ->. by apply Hk.
  - destruct (d !! k') as [x|] eqn:Hk'.
    + rewrite (dict_delitem_Some _ _ _ _ _ Hd Hk') in E. injection E as <- <-.
      split; [done|]. split; [simpl; rewrite lookup_insert_eq; eauto|].
      rewrite field_insert_heap. unfold field. rewrite Hd. simpl.
      apply lookup_delete_ne. intros ->. by apply Hk.
    + rewrite (dict_delitem_None _ _ _ _ Hd Hk') in E. injection E as <- <-.
      rewrite Hd. eauto.
  - assert (w' = w) as ->; [|rewrite Hd; eauto].
    destruct (d !! k') as [y|] eqn:Hk'.
    + rewrite (bind_Ret _ _ _ _ _ (dict_getitem_Some _ _ _ _ _ Hd Hk')) in E.
      rewrite check_runs in E. by injection E as <- <-.
    + rewrite (bind_Raise _ _ _ _ _ (dict_getitem_None _ _ _ _ Hd Hk')) in E.
      by injection E as <- <-.
  - assert (w' = w) as ->; [|rewrite Hd; eauto].
    rewrite (bind_Ret _ _ _ _ _ (py_in_ref _ _ _ _ Hd)) in E.
    rewrite check_runs in E. by injection E as <- <-.
Qed.

(** ** [managed_resource] *)

Lemma managed_resource_runs r w :
  ∃ l, heap w !! l = None ∧
    managed_resource r w =
      (Ret (VRef l),
       set_finalizers (λ q, q ++ [teardown l])
         (set_stdout (λ out, out ++ [resource_created])
            (set_heap <[l := fresh_resource]> w))).
Proof.
  destruct (alloc_dict_fresh fresh_resource w) as (l & Hl & E).
  exists l. split; [done|]. unfold managed_resource.
  rewrite (bind_Ret _ _ _ _ _ E).
  erewrite bind_Ret; [|eapply dict_getitem_Some;
                        [simpl; apply lookup_insert_eq|reflexivity]].
  reflexivity.
Qed.

Lemma setup_managed_resource depth inv w :
  setup depth inv managed_resource_def w
  = managed_resource
      (mk_request managed_resource_def inv (item_param "managed_resource" w)
         (getfixturevalue_at depth inv)) w.
Proof. reflexivity. Qed.

Lemma body_trace_invariant (P : world → Prop) l ss :
  (∀ s w o w', s ∈ ss → P w → exec_stmt (VRef l) s w = (o, w') → P w') →
  ∀ w, P w → Forall P (body_trace (VRef l) ss w).
Proof.
  induction ss as [|s ss IH]; intros Hstep w Hw; simpl.
  - by repeat constructor.
  - constructor; [done|].
    destruct (exec_stmt (VRef l) s w) as [[[]|e] w'] eqn:E.
    + apply IH.
      * intros s' w1 o w2 Hs'. apply Hstep. by right.
      * eapply Hstep; [left|done|done].
    + constructor; [|constructor]. eapply Hstep; [left|done|done].
Qed.

(** C4: for every test body using [managed_resource] that writes and
    removes only fields other than ["status"], the resource's ["status"] is
    ["active"] in every world the body goes through, and the teardown stays
    registered, not yet called, all along. *)
Theorem managed_resource_active_during_body depth inv w ss :
  Forall (λ s, written_key s ≠ Some "status") ss →
  ∃ l w1,
    heap w !! l = None ∧
    setup depth inv managed_resource_def w = (Ret (VRef l), w1) ∧
    Forall (λ w', field w' l "status" = Some (VStr "active") ∧
                  finalizers w' = finalizers w ++ [teardown l])
      (body_trace (VRef l) ss w1).
Proof.
  intros Hss. rewrite setup_managed_resource.
  destruct (managed_resource_runs
              (mk_request managed_resource_def inv
                 (item_param "managed_resource" w)
                 (getfixturevalue_at depth inv))
              w) as (l & Hl & E).
  eexists l, _. split; [done|]. split; [exact E|].
  eapply Forall_impl.
  - apply (body_trace_invariant
             (λ w', is_Some (heap w' !! l) ∧
                    field w' l "status" = Some (VStr "active") ∧
                    finalizers w' = finalizers w ++ [teardown l])).
    + intros s w1 o w2 Hs (Hsome & Hst & Hfin) Hexec.
      rewrite Forall_forall in Hss.
      destruct (exec_stmt_frame _ _ _ _ _ "status" Hexec Hsome (Hss _ Hs))
        as (Hf & Hsome' & Hfield).
      split; [done|]. split; congruence.
    + split; [simpl; rewrite lookup_insert_eq; eauto|].
      split; [|done]. unfold field. simpl. by rewrite lookup_insert_eq.
  - intros w' (_ & H1 & H2). done.
Qed.

(** The body of [test_managed_resource] from the source. *)
Lemma managed_resource_active_during_body_witness :
  ∃ l w1,
    heap (module_world "test_managed_resource" []) !! l = None ∧
    setup 1 (module_invocation "test_managed_resource") managed_resource_def
      (module_world "test_managed_resource" []) = (Ret (VRef l), w1) ∧
    Forall (λ w', field w' l "status" = Some (VStr "active") ∧
                  finalizers w' =
                    finalizers (module_world "test_managed_resource" [])
                    ++ [teardown l])
      (body_trace (VRef l) test_managed_resource w1).
Proof.
  apply (managed_resource_active_during_body 1
           (module_invocation "test_managed_resource")
           (module_world "test_managed_resource" []) test_managed_resource).
  repeat constructor; discriminate.
Defined.

(** ** The teardown of [managed_resource] *)

Lemma teardown_runs l d w :
  heap w !! l = Some d →
  let w1 := set_heap <[l := <["status" := VStr "inactive"]> d]> w in
  run_finalizer (teardown l) w =
    match d !! "name" with
    | Some name =>
        (Ret tt,
         set_stdout
           (λ out, out ++ [(newline ++ "Resource released: " ++ py_str name)%string])
           w1)
    | None => (Raise (Exn KeyError "name"), w1)
    end.
Proof.
  intros Hl w1. unfold run_finalizer.
  rewrite (bind_Ret _ _ _ _ _ (dict_setitem_ref _ _ _ _ _ Hl)).
  fold w1.
  assert (Hw1 : heap w1 !! l = Some (<["status" := VStr "inactive"]> d))
    by (simpl; apply lookup_insert_eq).
  destruct (d !! "name") as [name|] eqn:Hname.
  - erewrite bind_Ret; [reflexivity|].
    eapply dict_getitem_Some; [exact Hw1|]. by rewrite lookup_insert_ne.
  - erewrite bind_Raise; [reflexivity|].
    eapply dict_getitem_None; [exact Hw1|]. by rewrite lookup_insert_ne.
Qed.

(** C10: the teardown registered by [managed_resource] sets ["status"] to
    ["inactive"] in the resource dictionary and changes no other field of
    it, whatever fields the dictionary has by then; no other object, and
    nothing of the node or the finalizer queue, is changed either. *)
Theorem teardown_changes_status_only l d w :
  heap w !! l = Some d →
  ∃ o w',
    run_finalizer (teardown l) w = (o, w') ∧
    heap w' = <[l := <["status" := VStr "inactive"]> d]> (heap w) ∧
    field w' l "status" = Some (VStr "inactive") ∧
    (∀ k, k ≠ "status" → field w' l k = d !! k) ∧
    (∀ l', l' ≠ l → heap w' !! l' = heap w !! l') ∧
    item w' = item w ∧ parents w' = parents w ∧
    finalizers w' = finalizers w.
Proof.
  intros Hl. pose proof (teardown_runs l d w Hl) as E. simpl in E.
  assert (Hheap : ∀ w', heap w' = <[l := <["status" := VStr "inactive"]> d]> (heap w) →
    field w' l "status" = Some (VStr "inactive") ∧
    (∀ k, k ≠ "status" → field w' l k = d !! k) ∧
    (∀ l', l' ≠ l → heap w' !! l' = heap w !! l')).
  { intros w' Hw'. unfold field. rewrite Hw', lookup_insert_eq. simpl.
    split; [apply lookup_insert_eq|].
    split; [intros k Hk; by apply lookup_insert_ne|].
    intros l' Hl'. by apply lookup_insert_ne. }
  destruct (d !! "name") as [name|]; eexists _, _; (split; [exact E|]);
    (split; [reflexivity|]); (split; [|split; [|split]]);
    try apply Hheap; try reflexivity; done.
Qed.

(** The resource as [test_managed_resource] leaves it: after the teardown
    it still has its name and the ["data"] field the body added. *)
Lemma teardown_changes_status_only_witness :
  ∃ o w',
    run_finalizer (teardown 1) world_after_body = (o, w') ∧
    heap w' = <[1%positive := <["status" := VStr "inactive"]>
                   (<["data" := VStr "test data"]> fresh_resource)]>
                (heap world_after_body) ∧
    field w' 1 "status" = Some (VStr "inactive") ∧
    (∀ k, k ≠ "status" →
       field w' 1 k = (<["data" := VStr "test data"]> fresh_resource) !! k) ∧
    (∀ l', l' ≠ 1%positive → heap w' !! l' = heap world_after_body !! l') ∧
    item w' = item world_after_body ∧ parents w' = parents world_after_body ∧
    finalizers w' = finalizers world_after_body.
Proof.
  apply (teardown_changes_status_only 1
           (<["data" := VStr "test data"]> fresh_resource) world_after_body).
  reflexivity.
Defined.

(** ** The finalizer queue *)

Lemma run_finalizer_queue f w :
  finalizers (run_finalizer f w).2 = finalizers w.
Proof.
  destruct f as [|l]; [done|].
  destruct (heap w !! l) as [d|] eqn:Hl.
  - rewrite (teardown_runs l d w Hl). simpl. by destruct (d !! "name").
  - unfold run_finalizer, dict_setitem.
    erewrite bind_Raise; [done|].
    erewrite bind_Raise; [done|]. unfold deref. by rewrite Hl.
Qed.

Lemma exec_stmt_queue d s w :
  finalizers (exec_stmt d s w).2 = finalizers w.
Proof.
  destruct s; simpl;
    unfold py_in, check, dict_setitem, dict_delitem, dict_getitem, deref,
      mbind, M_bind, bind, mret, M_ret, ret, raise;
    destruct d; simpl; repeat case_match; simplify_eq; done.
Qed.

Lemma exec_body_queue d ss w :
  finalizers (exec_body d ss w).2 = finalizers w.
Proof.
  revert w. induction ss as [|s ss IH]; intros w; [done|]. simpl.
  pose proof (exec_stmt_queue d s w) as Hs.
  unfold mbind, M_bind, bind.
  destruct (exec_stmt d s w) as [[[]|e] w1]; simpl in *; [|done].
  by rewrite IH.
Qed.

Lemma registering_runs fs result w :
  registering fs result w = (result, set_finalizers (λ q, q ++ fs) w).
Proof.
  revert w. induction fs as [|f fs IH]; intros w; simpl.
  - destruct w. unfold set_finalizers. simpl. by rewrite app_nil_r.
  - run_stmt. rewrite IH.
    unfold set_finalizers. simpl. by rewrite <- app_assoc.
Qed.

(** The loop empties the queue it is given enough fuel for, calling the
    callbacks from the last registered to the first. *)
Lemma finish_loop_drains q :
  ∀ w fuel calls, finalizers w = q → (length q ≤ fuel)%nat →
  ∃ calls' w',
    finish_loop fuel calls w = (Ret (calls ++ calls'), w') ∧
    calls'.*1 = rev q ∧ finalizers w' = [].
Proof.
  induction q as [|f q IH] using rev_ind; intros w fuel calls Hq Hfuel.
  - exists [], w. rewrite app_nil_r.
    destruct fuel; simpl; [done|]. by rewrite Hq.
  - rewrite length_app in Hfuel. simpl in Hfuel.
    destruct fuel as [|fuel]; [lia|]. simpl.
    rewrite Hq, last_snoc.
    pose proof (run_finalizer_queue f (set_finalizers (λ q0, removelast q0) w)) as Hf.
    destruct (run_finalizer f _) as [o w2]. simpl in Hf.
    rewrite Hq, removelast_last in Hf.
    destruct (IH w2 fuel (calls ++ [(f, o)]) Hf ltac:(lia))
      as (calls' & w' & E & Hcalls & Hw').
    exists ((f, o) :: calls'), w'. split.
    + rewrite E. by rewrite <- app_assoc.
    + split; [|done]. rewrite rev_unit, fmap_cons. simpl. by f_equal.
Qed.

Lemma finish_drains w :
  ∃ calls w',
    finish w = (Ret calls, w') ∧
    calls.*1 = rev (finalizers w) ∧ finalizers w' = [].
Proof.
  destruct (finish_loop_drains (finalizers w) w (length (finalizers w)) [])
    as (calls & w' & E & H1 & H2); [done..|].
  exists calls, (set_instances (λ _, ∅) w'). unfold finish. by rewrite E.
Qed.

(** C7: for every sequence [fs] of callbacks a fixture registers with
    [addfinalizer], whether the fixture then returns or raises, the end of
    the test calls each of them once, the last registered first, before the
    callbacks that were already waiting, and leaves the queue empty. *)
Theorem finalizers_run_in_reverse_once fs result ss w :
  ∃ ob calls w',
    run_test (registering fs result) (λ d, exec_body d ss) w
      = (Ret (ob, calls), w') ∧
    calls.*1 = rev fs ++ rev (finalizers w) ∧
    calls.*1 ≡ₚ finalizers w ++ fs ∧
    finalizers w' = [] ∧
    (∀ e, result = Raise e → ob = Raise e).
Proof.
  unfold run_test. rewrite registering_runs.
  set (w1 := set_finalizers (λ q, q ++ fs) w).
  assert (Hbody : ∃ ob w2,
    match result with
    | Ret v => exec_body v ss w1
    | Raise e => (Raise e, w1)
    end = (ob, w2) ∧ finalizers w2 = finalizers w ++ fs ∧
    (∀ e, result = Raise e → ob = Raise e)).
  { destruct result as [v|e].
    - pose proof (exec_body_queue v ss w1) as Hq.
      destruct (exec_body v ss w1) as [ob w2]. exists ob, w2. done.
    - exists (Raise e), w1. repeat split. by intros ? [= ->]. }
  destruct Hbody as (ob & w2 & -> & Hq & Hraise).
  destruct (finish_drains w2) as (calls & w3 & -> & Hcalls & Hw3).
  exists ob, calls, w3. rewrite Hq in Hcalls.
  split; [done|]. split; [by rewrite Hcalls, rev_app_distr|].
  split; [|done]. rewrite Hcalls. by rewrite <- Permutation_rev.
Qed.

(** The callbacks of the two fixtures of the module, registered one after
    the other by a fixture that then raises. *)
Lemma finalizers_run_in_reverse_once_witness :
  ∃ ob calls w',
    run_test
      (registering [cleanup_function; teardown 1]
         (Raise (Exn (OtherException "RuntimeError") "")))
      (λ d, exec_body d test_managed_resource) world_after_body
      = (Ret (ob, calls), w') ∧
    calls.*1 = rev [cleanup_function; teardown 1]
               ++ rev (finalizers world_after_body) ∧
    calls.*1 ≡ₚ finalizers world_after_body ++ [cleanup_function; teardown 1] ∧
    finalizers w' = [] ∧
    (∀ e, @Raise pyval (Exn (OtherException "RuntimeError") "") = Raise e →
          ob = Raise e).
Proof.
  exact (finalizers_run_in_reverse_once [cleanup_function; teardown 1]
           (Raise (Exn (OtherException "RuntimeError") ""))
           test_managed_resource world_after_body).
Defined.

(** The whole life of [managed_resource] under [test_managed_resource]: the
    body passes, the teardown is the one callback called, and the resource
    ends inactive with its name and the field the body added. *)
Example test_managed_resource_life :
  let run := run_test
               (setup 1 (module_invocation "test_managed_resource")
                  managed_resource_def)
               (λ d, exec_body d test_managed_resource)
               (module_world "test_managed_resource" []) in
  run.1 = Ret (Ret tt, [(teardown 1, Ret tt)]) ∧
  heap run.2 !! 1%positive
    = Some (<["status" := VStr "inactive"]>
              (<["data" := VStr "test data"]> fresh_resource)) ∧
  finalizers run.2 = [].
Proof. vm_compute. done. Qed.

(** ** [fixture_user] and [advanced_fixture] *)

Lemma lookup_fixture_user depth inv :
  getfixturevalue_at (S depth) inv "fixture_user"
  = cached "fixture_user" (setup depth inv fixture_user_def).
Proof. reflexivity. Qed.

Lemma setup_fixture_user depth inv w :
  returns_new_dict (setup depth inv fixture_user_def) w user_record.
Proof. apply new_dict_returns. Qed.

(** The lookup of ["fixture_user"]: the instance the test has, or a new
    one, made as by a test that asks for [fixture_user] itself, and kept. *)
Lemma lookup_fixture_user_cases depth inv w :
  match instances w !! "fixture_user" with
  | Some u => getfixturevalue_at (S depth) inv "fixture_user" w = (Ret u, w)
  | None =>
      ∃ lu, heap w !! lu = None ∧
        setup depth inv fixture_user_def w
        = (Ret (VRef lu), set_heap <[lu := user_record]> w) ∧
        getfixturevalue_at (S depth) inv "fixture_user" w
        = (Ret (VRef lu),
           set_instances <["fixture_user" := VRef lu]>
             (set_heap <[lu := user_record]> w))
  end.
Proof.
  rewrite lookup_fixture_user.
  destruct (instances w !! "fixture_user") as [u|] eqn:Hu.
  - by apply cached_hit.
  - destruct (setup_fixture_user depth inv w) as (lu & Hlu & E).
    exists lu. split; [done|]. split; [done|]. by apply cached_miss.
Qed.

Lemma advanced_fixture_runs r w lu v w1 :
  getfixturevalue r "fixture_user" w = (Ret (VRef lu), w1) →
  heap w1 !! lu = Some v →
  ∃ la, heap w1 !! la = None ∧
    advanced_fixture r w =
      (Ret (VRef la),
       set_heap <[la := <["accessed_by" := VStr (fixturename r)]>
                          (<["is_admin" := VBool false]> v)]> w1).
Proof.
  intros E Hlu. unfold advanced_fixture.
  rewrite (bind_Ret _ _ _ _ _ E).
  rewrite (bind_Ret _ _ _ _ _ (deref_ref _ _ _ Hlu)).
  destruct (new_dict_returns
              (<["accessed_by" := VStr (fixturename r)]>
                 (<["is_admin" := VBool false]> v)) w1) as (la & Hla & ->).
  eauto.
Qed.

(** C9: whatever dictionary [v] the lookup of ["fixture_user"] returns,
    [advanced_fixture] returns a new dictionary that is [v] with
    ["is_admin"] bound to [False] and ["accessed_by"] bound to
    ["advanced_fixture"]: every other key has the value it has in [v], there
    is no further key, and [v] itself is left as it was. *)
Theorem advanced_fixture_extends_user inv resolver w lu v w1 :
  resolver "fixture_user" w = (Ret (VRef lu), w1) →
  heap w1 !! lu = Some v →
  ∃ la w',
    instantiate resolver inv advanced_fixture_def w = (Ret (VRef la), w') ∧
    la ≠ lu ∧
    heap w' !! la = Some (extended v) ∧
    heap w' !! lu = Some v ∧
    extended v !! "is_admin" = Some (VBool false) ∧
    extended v !! "accessed_by" = Some (VStr "advanced_fixture") ∧
    (∀ k, k ≠ "is_admin" → k ≠ "accessed_by" → extended v !! k = v !! k) ∧
    dom (extended v) = {["is_admin"; "accessed_by"]} ∪ dom v.
Proof.
  intros E Hlu.
  destruct (advanced_fixture_runs
              (mk_request advanced_fixture_def inv
                 (item_param "advanced_fixture" w) resolver) w lu v w1 E Hlu)
    as (la & Hla & Hrun).
  assert (Hne : la ≠ lu) by congruence.
  eexists la, _. split; [exact Hrun|]. split; [done|].
  split; [simpl; apply lookup_insert_eq|].
  split; [simpl; by rewrite lookup_insert_ne|].
  unfold extended.
  split; [by rewrite lookup_insert_ne, lookup_insert_eq|].
  split; [by rewrite lookup_insert_eq|].
  split; [intros k H1 H2; by rewrite !lookup_insert_ne|].
  rewrite !dom_insert_L. apply set_eq. intros k.
  rewrite !elem_of_union. tauto.
Qed.

(** The lookup as the module has it: ["fixture_user"] is the fixture of the
    module, and [v] is the dictionary it returns. *)
Lemma advanced_fixture_extends_user_witness :
  ∃ la w',
    instantiate (getfixturevalue_at 1 (module_invocation "test_getfixturevalue"))
      (module_invocation "test_getfixturevalue") advanced_fixture_def
      (module_world "test_getfixturevalue" []) = (Ret (VRef la), w') ∧
    la ≠ 1%positive ∧
    heap w' !! la = Some (extended user_record) ∧
    heap w' !! 1%positive = Some user_record ∧
    extended user_record !! "is_admin" = Some (VBool false) ∧
    extended user_record !! "accessed_by" = Some (VStr "advanced_fixture") ∧
    (∀ k, k ≠ "is_admin" → k ≠ "accessed_by" →
          extended user_record !! k = user_record !! k) ∧
    dom (extended user_record) = {["is_admin"; "accessed_by"]} ∪ dom user_record.
Proof.
  apply (advanced_fixture_extends_user
           (module_invocation "test_getfixturevalue")
           (getfixturevalue_at 1 (module_invocation "test_getfixturevalue"))
           (module_world "test_getfixturevalue" []) 1 user_record
           (set_instances <["fixture_user" := VRef 1]>
              (set_heap <[1%positive := user_record]>
                 (module_world "test_getfixturevalue" [])))).
  - vm_compute. reflexivity.
  - vm_compute. reflexivity.
Defined.

Lemma advanced_fixture_keeps_user r w lu v w1 :
  getfixturevalue r "fixture_user" w = (Ret (VRef lu), w1) →
  heap w1 !! lu = Some v →
  fixturename r = "advanced_fixture" →
  ∃ la w',
    advanced_fixture r w = (Ret (VRef la), w') ∧
    la ≠ lu ∧
    heap w' = <[la := extended v]> (heap w1) ∧
    field w' la "username" = v !! "username" ∧
    field w' la "id" = v !! "id" ∧
    field w' lu "username" = v !! "username" ∧
    field w' lu "id" = v !! "id".
Proof.
  intros E Hlu Hname.
  destruct (advanced_fixture_runs r w lu v w1 E Hlu) as (la & Hla & Hrun).
  assert (Hne : la ≠ lu) by congruence.
  eexists la, _. split; [exact Hrun|]. split; [done|].
  rewrite Hname. split; [done|].
  unfold field. simpl. rewrite lookup_insert_eq.
  rewrite lookup_insert_ne, Hlu by done. simpl.
  by rewrite !lookup_insert_ne.
Qed.

(** C3 (as stated) fails: a fixture instance is shared by everything that
    asks for it in one test, so that in a test that sets [rename_user] up
    before [advanced_fixture], the lookup in [advanced_fixture] returns the
    instance [rename_user] fetched and changed, whose [username] is not
    ["testuser"], and so is the [username] [advanced_fixture] returns. *)
Lemma advanced_fixture_sees_renamed_user :
  ∃ w1 w',
    getfixturevalue_at 1 renaming_invocation "rename_user"
      (module_world "test_renamed" []) = (Ret VNone, w1) ∧
    instances w1 !! "fixture_user" = Some (VRef 1) ∧
    field w1 1 "username" = Some (VStr "renamed") ∧
    getfixturevalue_at 1 renaming_invocation "fixture_user" w1
    = (Ret (VRef 1), w1) ∧
    setup 1 renaming_invocation advanced_fixture_def w1 = (Ret (VRef 2), w') ∧
    field w' 2 "username" = Some (VStr "renamed") ∧
    field w' 2 "username" ≠ Some (VStr "testuser").
Proof.
  eexists _, _. split; [reflexivity|]. split; [reflexivity|].
  split; [reflexivity|]. split; [reflexivity|]. split; [reflexivity|].
  split; [reflexivity|]. discriminate.
Qed.

(** C3 (as amended): in every context in which [advanced_fixture] is set
    up, the dictionary it returns has the [username] and the [id] of the
    value its lookup of ["fixture_user"] handed it, whatever that value is.
    When the test has no instance of [fixture_user] yet, pytest's lookup
    makes one: it returns the very dictionary [fixture_user] returns when
    set up directly, with [username] ["testuser"] and [id] [123], keeps it
    as the instance of the test, so that a second lookup returns it again,
    and the two values are in the dictionary of [advanced_fixture].  When
    the test has an instance already, the lookup returns that one and makes
    no other, and [advanced_fixture] has the fields as they are in it by
    then. *)
Theorem advanced_fixture_sees_fixture_user depth inv w :
  (∀ resolver lu v w1,
     resolver "fixture_user" w = (Ret (VRef lu), w1) →
     heap w1 !! lu = Some v →
     ∃ la w',
       instantiate resolver inv advanced_fixture_def w = (Ret (VRef la), w') ∧
       la ≠ lu ∧
       heap w' = <[la := extended v]> (heap w1) ∧
       field w' la "username" = v !! "username" ∧
       field w' la "id" = v !! "id" ∧
       field w' lu "username" = v !! "username" ∧
       field w' lu "id" = v !! "id") ∧
  (instances w !! "fixture_user" = None →
   ∃ lu w0 w1 la w',
     setup depth inv fixture_user_def w = (Ret (VRef lu), w0) ∧
     heap w !! lu = None ∧
     field w0 lu "username" = Some (VStr "testuser") ∧
     field w0 lu "id" = Some (VInt 123) ∧
     getfixturevalue_at (S depth) inv "fixture_user" w = (Ret (VRef lu), w1) ∧
     w1 = set_instances <["fixture_user" := VRef lu]> w0 ∧
     getfixturevalue_at (S depth) inv "fixture_user" w1 = (Ret (VRef lu), w1) ∧
     setup (S depth) inv advanced_fixture_def w = (Ret (VRef la), w') ∧
     la ≠ lu ∧
     field w' la "username" = Some (VStr "testuser") ∧
     field w' la "id" = Some (VInt 123) ∧
     field w' lu "username" = Some (VStr "testuser") ∧
     field w' lu "id" = Some (VInt 123)) ∧
  (∀ u, instances w !! "fixture_user" = Some u →
     getfixturevalue_at (S depth) inv "fixture_user" w = (Ret u, w) ∧
     ∀ lu v, u = VRef lu → heap w !! lu = Some v →
       ∃ la w',
         setup (S depth) inv advanced_fixture_def w = (Ret (VRef la), w') ∧
         la ≠ lu ∧
         heap w' = <[la := extended v]> (heap w) ∧
         field w' la "username" = v !! "username" ∧
         field w' la "id" = v !! "id" ∧
         field w' lu "username" = v !! "username" ∧
         field w' lu "id" = v !! "id").
Proof.
  pose proof (lookup_fixture_user_cases depth inv w) as Hlookup.
  split; [|split].
  - intros resolver lu v w1 E Hlu.
    exact (advanced_fixture_keeps_user
             (mk_request advanced_fixture_def inv
                (item_param "advanced_fixture" w) resolver)
             w lu v w1 E Hlu eq_refl).
  - intros Hnone. rewrite Hnone in Hlookup.
    destruct Hlookup as (lu & Hlu & Esetup & Elookup).
    set (w0 := set_heap <[lu := user_record]> w) in *.
    set (w1 := set_instances <["fixture_user" := VRef lu]> w0) in *.
    assert (Hw1 : heap w1 !! lu = Some user_record)
      by (simpl; apply lookup_insert_eq).
    destruct (advanced_fixture_keeps_user
                (mk_request advanced_fixture_def inv
                   (item_param "advanced_fixture" w)
                   (getfixturevalue_at (S depth) inv))
                w lu user_record w1 Elookup Hw1 eq_refl)
      as (la & w' & Hrun & Hne & _ & H1 & H2 & H3 & H4).
    exists lu, w0, w1, la, w'.
    split; [exact Esetup|]. split; [exact Hlu|].
    split; [apply field_insert_heap|]. split; [apply field_insert_heap|].
    split; [exact Elookup|]. split; [reflexivity|].
    split; [apply cached_hit; simpl; apply lookup_insert_eq|].
    split; [exact Hrun|]. split; [exact Hne|]. done.
  - intros u Hu. rewrite Hu in Hlookup. split; [exact Hlookup|].
    intros lu v -> Hlu.
    exact (advanced_fixture_keeps_user
             (mk_request advanced_fixture_def inv
                (item_param "advanced_fixture" w)
                (getfixturevalue_at (S depth) inv))
             w lu v w Hlookup Hlu eq_refl).
Qed.

(** [test_getfixturevalue] of the source: the test asks for
    [advanced_fixture] only, so that the lookup is the first request for
    [fixture_user]. *)
Lemma advanced_fixture_sees_fixture_user_witness :
  ∃ lu w0 w1 la w',
    setup 0 (module_invocation "test_getfixturevalue") fixture_user_def
      (module_world "test_getfixturevalue" []) = (Ret (VRef lu), w0) ∧
    heap (module_world "test_getfixturevalue" []) !! lu = None ∧
    field w0 lu "username" = Some (VStr "testuser") ∧
    field w0 lu "id" = Some (VInt 123) ∧
    getfixturevalue_at 1 (module_invocation "test_getfixturevalue")
      "fixture_user" (module_world "test_getfixturevalue" [])
    = (Ret (VRef lu), w1) ∧
    w1 = set_instances <["fixture_user" := VRef lu]> w0 ∧
    getfixturevalue_at 1 (module_invocation "test_getfixturevalue")
      "fixture_user" w1 = (Ret (VRef lu), w1) ∧
    setup 1 (module_invocation "test_getfixturevalue") advanced_fixture_def
      (module_world "test_getfixturevalue" []) = (Ret (VRef la), w') ∧
    la ≠ lu ∧
    field w' la "username" = Some (VStr "testuser") ∧
    field w' la "id" = Some (VInt 123) ∧
    field w' lu "username" = Some (VStr "testuser") ∧
    field w' lu "id" = Some (VInt 123).
Proof.
  apply (proj1 (proj2 (advanced_fixture_sees_fixture_user 0
                         (module_invocation "test_getfixturevalue")
                         (module_world "test_getfixturevalue" [])))).
  reflexivity.
Defined.

(** ** [demonstrate_request_methods] *)

(** The body up to and after the guarded lookup of [tmp_path]: the lookup
    runs in [before_tmp_path_lookup w]; a value is bound as it is, an
    instance of [Exception] is replaced by [None], anything else leaves the
    fixture. *)
Lemma demo_locals_cases r w :
  match getfixturevalue r "tmp_path" (before_tmp_path_lookup w) with
  | (Ret v, w3) =>
      ∃ ls, demonstrate_request_methods_locals r w = (Ret ls, w3) ∧
            tmp_path_value ls = v ∧
            fixture_name ls = fixturename r ∧ fixture_scope ls = scope r
  | (Raise e, w3) =>
      if issubclass_Exception e
      then ∃ ls, demonstrate_request_methods_locals r w = (Ret ls, w3) ∧
                 tmp_path_value ls = VNone ∧
                 fixture_name ls = fixturename r ∧ fixture_scope ls = scope r
      else demonstrate_request_methods_locals r w = (Raise e, w3)
  end.
Proof.
  unfold demonstrate_request_methods_locals.
  run_stmt.
  run_stmt.
  run_stmt.
  change (set_item _ (set_finalizers _ w)) with (before_tmp_path_lookup w).
  destruct (getfixturevalue r "tmp_path" (before_tmp_path_lookup w))
    as [[v|e] w3] eqn:E.
  - erewrite bind_Ret; [|by unfold try_except_Exception; rewrite E].
    eexists. split; [reflexivity|]. by repeat split.
  - destruct (issubclass_Exception e) eqn:He.
    + erewrite bind_Ret; [|by unfold try_except_Exception; rewrite E, He].
      eexists. split; [reflexivity|]. by repeat split.
    + erewrite bind_Raise; [done|].
      by unfold try_except_Exception; rewrite E, He.
Qed.

Lemma demo_returns_after_locals r w ls w3 :
  demonstrate_request_methods_locals r w = (Ret ls, w3) →
  ∃ l w', demonstrate_request_methods r w = (Ret (VRef l), w') ∧
    field w' l "fixture_name" = Some (VStr (fixture_name ls)) ∧
    field w' l "fixture_scope" = Some (VStr (fixture_scope ls)).
Proof.
  intros E. unfold demonstrate_request_methods.
  rewrite (bind_Ret _ _ _ _ _ E).
  match goal with |- context [new_dict ?d w3] =>
    destruct (new_dict_returns d w3) as (l & Hl & ->) end.
  eexists l, _. split; [reflexivity|].
  rewrite !field_insert_heap. split; [apply lookup_insert_eq|].
  rewrite lookup_insert_ne by done. apply lookup_insert_eq.
Qed.

Lemma lookup_tmp_path depth inv :
  getfixturevalue_at depth inv "tmp_path"
  = cached "tmp_path"
      match plugin_fixtures inv "tmp_path" with
      | Some m => m
      | None => raise (Exn FixtureLookupError "tmp_path")
      end.
Proof. by destruct depth. Qed.

Lemma setup_demonstrate depth inv w :
  setup depth inv demonstrate_request_methods_def w
  = demonstrate_request_methods
      (mk_request demonstrate_request_methods_def inv
         (item_param "demonstrate_request_methods" w)
         (getfixturevalue_at depth inv)) w.
Proof. reflexivity. Qed.

Lemma demo_locals_fields r w ls w3 :
  demonstrate_request_methods_locals r w = (Ret ls, w3) →
  fixture_name ls = fixturename r ∧ fixture_scope ls = scope r.
Proof.
  intros E. pose proof (demo_locals_cases r w) as H.
  destruct (getfixturevalue r "tmp_path" (before_tmp_path_lookup w))
    as [[v|e] w4].
  - destruct H as (ls' & E' & _ & H). rewrite E in E'. by injection E' as -> _.
  - destruct (issubclass_Exception e).
    + destruct H as (ls' & E' & _ & H). rewrite E in E'.
      by injection E' as -> _.
    + rewrite E in H. discriminate H.
Qed.

(** C5: whenever [demonstrate_request_methods], set up for a test, returns,
    it returns a dictionary whose ["fixture_name"] is its declared
    identifier and whose ["fixture_scope"] is one of the four scope levels;
    and it does return in every invocation where a failure of the
    [tmp_path] fixture is one an [except Exception:] clause catches. *)
Theorem demonstrate_reports_name_and_scope depth inv w :
  (∀ v w',
     setup depth inv demonstrate_request_methods_def w = (Ret v, w') →
     ∃ l, v = VRef l ∧
       field w' l "fixture_name" = Some (VStr "demonstrate_request_methods") ∧
       ∃ s, field w' l "fixture_scope" = Some (VStr s) ∧
            s ∈ ["function"; "class"; "module"; "session"]) ∧
  ((∀ m, plugin_fixtures inv "tmp_path" = Some m → recoverable m) →
   ∃ v w', setup depth inv demonstrate_request_methods_def w = (Ret v, w')).
Proof.
  rewrite setup_demonstrate. set (r := mk_request _ _ _ _). split.
  - intros v w' E.
    destruct (demonstrate_request_methods_locals r w) as [[ls|e] w3] eqn:Els.
    + destruct (demo_locals_fields r w ls w3 Els) as [Hname Hscope].
      destruct (demo_returns_after_locals r w ls w3 Els)
        as (l & w'' & E' & H1 & H2).
      rewrite E in E'. injection E' as -> ->.
      exists l. split; [done|]. rewrite Hname in H1. split; [done|].
      exists "function". rewrite Hscope in H2. split; [done|]. left.
    + unfold demonstrate_request_methods in E.
      rewrite (bind_Raise _ _ _ _ _ Els) in E. discriminate E.
  - intros Hrec. pose proof (demo_locals_cases r w) as H.
    assert (Hls : ∃ ls w3,
              demonstrate_request_methods_locals r w = (Ret ls, w3)).
    { destruct (getfixturevalue r "tmp_path" (before_tmp_path_lookup w))
        as [[v|e] w3] eqn:E.
      - destruct H as (ls & ? & _). by exists ls, w3.
      - assert (He : issubclass_Exception e = true).
        { unfold r in E. simpl in E. rewrite lookup_tmp_path in E.
          apply cached_Raise in E.
          destruct (plugin_fixtures inv "tmp_path") as [m|] eqn:Hm.
          - eapply Hrec; [done|exact E].
          - by injection E as <- _. }
        rewrite He in H. destruct H as (ls & ? & _). by exists ls, w3. }
    destruct Hls as (ls & w3 & Els).
    destruct (demo_returns_after_locals r w ls w3 Els) as (l & w' & E & _).
    by exists (VRef l), w'.
Qed.

(** [test_request_methods] of the source, with [tmp_path] available. *)
Lemma demonstrate_reports_name_and_scope_witness :
  ∃ v w',
    setup 1 (module_invocation "test_request_methods")
      demonstrate_request_methods_def
      (module_world "test_request_methods" []) = (Ret v, w') ∧
    ∃ l, v = VRef l ∧
      field w' l "fixture_name" = Some (VStr "demonstrate_request_methods") ∧
      ∃ s, field w' l "fixture_scope" = Some (VStr s) ∧
           s ∈ ["function"; "class"; "module"; "session"].
Proof.
  destruct (proj2 (demonstrate_reports_name_and_scope 1
                     (module_invocation "test_request_methods")
                     (module_world "test_request_methods" [])))
    as (v & w' & E).
  { intros m Hm w e w'. simpl in Hm. injection Hm as <-. discriminate. }
  exists v, w'. split; [exact E|].
  exact (proj1 (demonstrate_reports_name_and_scope 1
                  (module_invocation "test_request_methods")
                  (module_world "test_request_methods" [])) v w' E).
Defined.

(** ** Which failures are caught *)

(** C6 (as stated) fails: in an invocation where setting [tmp_path] up is
    interrupted from the keyboard, the lookup raises and the fixture lets
    the exception through instead of binding [None]. *)
Lemma tmp_path_interrupt_propagates :
  getfixturevalue
    (mk_request demonstrate_request_methods_def interrupted_invocation None
       (getfixturevalue_at 1 interrupted_invocation))
    "tmp_path"
    (before_tmp_path_lookup (module_world "test_request_methods" []))
  = (Raise (Exn KeyboardInterrupt ""),
     before_tmp_path_lookup (module_world "test_request_methods" [])) ∧
  demonstrate_request_methods_locals
    (mk_request demonstrate_request_methods_def interrupted_invocation None
       (getfixturevalue_at 1 interrupted_invocation))
    (module_world "test_request_methods" [])
  = (Raise (Exn KeyboardInterrupt ""),
     before_tmp_path_lookup (module_world "test_request_methods" [])) ∧
  setup 1 interrupted_invocation demonstrate_request_methods_def
    (module_world "test_request_methods" [])
  = (Raise (Exn KeyboardInterrupt ""),
     before_tmp_path_lookup (module_world "test_request_methods" [])).
Proof. repeat split. Qed.

(** C6 (as amended): the lookup of [tmp_path] in
    [demonstrate_request_methods] is the one guarded lookup.  When it raises
    an instance of [Exception] the fixture binds [None] and goes on to
    return its dictionary; when it raises anything else the exception leaves
    the fixture.  The lookup of ["fixture_user"] in [advanced_fixture] lets
    every exception through unchanged, and the other four fixtures make no
    lookup at all.  The other failures stay failures too: a missing
    [request.param] leaves [scenario] as an [AttributeError], a fetched
    value that is no mapping leaves [advanced_fixture] as the error of
    reading it, and a resource without ["name"] leaves the teardown as a
    [KeyError]. *)
Theorem only_tmp_path_lookup_recovers :
  (∀ r w e w3,
     getfixturevalue r "tmp_path" (before_tmp_path_lookup w) = (Raise e, w3) →
     issubclass_Exception e = true →
     ∃ ls l w',
       demonstrate_request_methods_locals r w = (Ret ls, w3) ∧
       tmp_path_value ls = VNone ∧
       demonstrate_request_methods r w = (Ret (VRef l), w')) ∧
  (∀ r w e w3,
     getfixturevalue r "tmp_path" (before_tmp_path_lookup w) = (Raise e, w3) →
     issubclass_Exception e = false →
     demonstrate_request_methods_locals r w = (Raise e, w3) ∧
     demonstrate_request_methods r w = (Raise e, w3)) ∧
  (∀ r w e w1,
     getfixturevalue r "fixture_user" w = (Raise e, w1) →
     advanced_fixture r w = (Raise e, w1)) ∧
  (∀ g r,
     scenario (with_resolver g r) = scenario r ∧
     fixture_user (with_resolver g r) = fixture_user r ∧
     data_source (with_resolver g r) = data_source r ∧
     managed_resource (with_resolver g r) = managed_resource r) ∧
  (∀ r w, param r = None →
     scenario r w = (Raise (Exn AttributeError "param"), w)) ∧
  (∀ r w v w1 e w2,
     getfixturevalue r "fixture_user" w = (Ret v, w1) →
     deref v w1 = (Raise e, w2) →
     advanced_fixture r w = (Raise e, w2)) ∧
  (∀ l d w, heap w !! l = Some d → d !! "name" = None →
     (run_finalizer (teardown l) w).1 = Raise (Exn KeyError "name")).
Proof.
  split; [|split; [|split; [|split; [|split; [|split]]]]].
  - intros r w e w3 E He. pose proof (demo_locals_cases r w) as H.
    rewrite E, He in H. destruct H as (ls & Hls & Htmp & _).
    destruct (demo_returns_after_locals r w ls w3 Hls) as (l & w' & Hd & _).
    by exists ls, l, w'.
  - intros r w e w3 E He. pose proof (demo_locals_cases r w) as H.
    rewrite E, He in H. split; [done|].
    unfold demonstrate_request_methods. by rewrite (bind_Raise _ _ _ _ _ H).
  - intros r w e w1 E. unfold advanced_fixture.
    by rewrite (bind_Raise _ _ _ _ _ E).
  - done.
  - intros r w Hp. unfold scenario, request_param. rewrite Hp.
    by erewrite bind_Raise.
  - intros r w v w1 e w2 E Hd. unfold advanced_fixture.
    rewrite (bind_Ret _ _ _ _ _ E). by rewrite (bind_Raise _ _ _ _ _ Hd).
  - intros l d w Hl Hname. rewrite (teardown_runs l d w Hl). by rewrite Hname.
Qed.

(** With no [tmp_path] fixture at all the lookup fails with pytest's
    [FixtureLookupError], and the fixture binds [None]. *)
Lemma only_tmp_path_lookup_recovers_witness :
  ∃ ls l w',
    demonstrate_request_methods_locals
      (mk_request demonstrate_request_methods_def bare_invocation None
         (getfixturevalue_at 1 bare_invocation))
      (module_world "test_request_methods" [])
    = (Ret ls,
       before_tmp_path_lookup (module_world "test_request_methods" [])) ∧
    tmp_path_value ls = VNone ∧
    demonstrate_request_methods
      (mk_request demonstrate_request_methods_def bare_invocation None
         (getfixturevalue_at 1 bare_invocation))
      (module_world "test_request_methods" [])
    = (Ret (VRef l), w').
Proof.
  apply (proj1 only_tmp_path_lookup_recovers
           (mk_request demonstrate_request_methods_def bare_invocation None
              (getfixturevalue_at 1 bare_invocation))
           (module_world "test_request_methods" [])
           (Exn FixtureLookupError "tmp_path")).
  - reflexivity.
  - reflexivity.
Defined.

(** ** The parametrized fixture [scenario] *)

Lemma scenario_runs r w p :
  param r = Some p →
  returns_new_dict (scenario r) w
    (<["name" := p]>
       (<["fixture_name" := VStr (fixturename r)]>
          (<["test_name" := VStr (node_name (item w))]> ∅))).
Proof.
  intros Hp. unfold returns_new_dict, scenario, request_param. rewrite Hp.
  run_stmt.
  run_stmt.
  apply new_dict_returns.
Qed.

(** The invocation made for the value [p] observes [p]. *)
Lemma observed_name_with_param depth inv w p :
  observed_name depth inv (with_param scenario_def p w) = Some p.
Proof.
  assert (Hp : item_param "scenario" (with_param scenario_def p w) = Some p).
  { unfold item_param. simpl. apply lookup_singleton_eq. }
  unfold observed_name, setup, instantiate. simpl. rewrite Hp.
  destruct (scenario_runs
              (mk_request scenario_def inv (Some p)
                 (getfixturevalue_at depth inv))
              (with_param scenario_def p w) p) as (l & Hl & E); [done|].
  rewrite E. rewrite field_insert_heap. apply lookup_insert_eq.
Qed.

(** C2: in a sweep of [test_parameterized_fixture] over the parameters of
    [scenario], every invocation observes as [scenario["name"]] one value of
    the declared set, the observations are the three declared values, one
    invocation each, and each value is observed exactly once. *)
Theorem scenario_sweep_covers_each_once depth inv w :
  scenario_params = [VStr "scenario1"; VStr "scenario2"; VStr "scenario3"] ∧
  observations depth inv w = Some <$> scenario_params ∧
  (∀ w', w' ∈ sweep scenario_def w →
     ∃ v, observed_name depth inv w' = Some v ∧ v ∈ scenario_params) ∧
  (∀ v, v ∈ scenario_params →
     length (filter (λ o, o = Some v) (observations depth inv w)) = 1%nat).
Proof.
  assert (Hobs : observations depth inv w = Some <$> scenario_params).
  { unfold observations, sweep. simpl.
    by rewrite !observed_name_with_param. }
  split; [done|]. split; [done|]. split.
  - intros w' Hrun.
    change (sweep scenario_def w)
      with ((λ p, with_param scenario_def p w) <$> scenario_params) in Hrun.
    apply list_elem_of_fmap in Hrun as (p & -> & Hp).
    exists p. by rewrite observed_name_with_param.
  - intros v Hv. rewrite Hobs. unfold scenario_params in *.
    repeat (apply elem_of_cons in Hv as [->|Hv]; [reflexivity|]).
    by apply not_elem_of_nil in Hv.
Qed.

(** ** The tests that only assert *)

(** An assertion reads the dictionary and changes nothing. *)
Lemma run_assertion_eval l d a w :
  heap w !! l = Some d →
  run_assertion (VRef l) a w = (eval_assertion (heap w) d a, w).
Proof.
  intros Hl. destruct a as [k x|k|k xs|sub k|k pre]; simpl;
    (destruct (d !! k) as [y|] eqn:Hk;
     [rewrite (bind_Ret _ _ _ _ _ (dict_getitem_Some _ _ _ _ _ Hl Hk))
     |by rewrite (bind_Raise _ _ _ _ _ (dict_getitem_None _ _ _ _ Hl Hk))]);
    try apply check_runs.
  - destruct y as [| | | | |ys|l']; simpl; try done;
      try (erewrite bind_Ret; [apply check_runs|reflexivity]).
    destruct (heap w !! l') as [items|] eqn:Hl'.
    + rewrite (bind_Ret _ _ _ _ _
                 (bind_Ret _ _ _ _ _ (deref_ref _ _ _ Hl'))).
      apply check_runs.
    + erewrite bind_Raise; [done|].
      erewrite bind_Raise; [done|]. unfold deref. by rewrite Hl'.
  - destruct y; simpl; try done.
    erewrite bind_Ret; [apply check_runs|reflexivity].
Qed.

Lemma run_assertions_eval l d body w :
  heap w !! l = Some d →
  run_assertions (VRef l) body w = (eval_assertions (heap w) d body, w).
Proof.
  intros Hl. induction body as [|a body IH]; [done|]. simpl.
  pose proof (run_assertion_eval l d a w Hl) as Ha.
  destruct (eval_assertion (heap w) d a) as [[]|e].
  - by rewrite (bind_Ret _ _ _ _ _ Ha).
  - by rewrite (bind_Raise _ _ _ _ _ Ha).
Qed.

Lemma eval_test_getfixturevalue h v :
  v !! "username" = Some (VStr "testuser") →
  v !! "id" = Some (VInt 123) →
  eval_assertions h (extended v) test_getfixturevalue = Ret tt.
Proof.
  intros Hname Hid. unfold test_getfixturevalue, extended.
  cbn [eval_assertions eval_assertion].
  rewrite !lookup_insert_ne, Hname by done.
  by rewrite Hid, !lookup_insert_eq.
Qed.

(** [test_getfixturevalue] passes in every invocation, from every world in
    which the test has no instance of [fixture_user] yet, as when the test
    starts, or has one that still holds the [username] and [id] it was
    created with: [advanced_fixture] is set up, and the four assertions of
    the test hold of the dictionary it returns. *)
Theorem test_getfixturevalue_passes depth inv w :
  fixture_user_as_created w →
  ∃ v w',
    setup (S depth) inv advanced_fixture_def w = (Ret v, w') ∧
    run_assertions v test_getfixturevalue w' = (Ret tt, w').
Proof.
  intros Hcreated.
  assert (Hfetch : ∃ lu v w1,
    getfixturevalue_at (S depth) inv "fixture_user" w = (Ret (VRef lu), w1) ∧
    heap w1 !! lu = Some v ∧
    v !! "username" = Some (VStr "testuser") ∧ v !! "id" = Some (VInt 123)).
  { pose proof (lookup_fixture_user_cases depth inv w) as Hlookup.
    unfold fixture_user_as_created in Hcreated.
    destruct (instances w !! "fixture_user") as [u|].
    - destruct Hcreated as (lu & -> & Hname & Hid). unfold field in Hname, Hid.
      destruct (heap w !! lu) as [v|] eqn:Hlu; [|done].
      by exists lu, v, w.
    - destruct Hlookup as (lu & _ & _ & E).
      eexists lu, user_record, _. split; [exact E|].
      split; [simpl; apply lookup_insert_eq|done]. }
  destruct Hfetch as (lu & v & w1 & E & Hlu & Hname & Hid).
  destruct (advanced_fixture_runs
              (mk_request advanced_fixture_def inv
                 (item_param "advanced_fixture" w)
                 (getfixturevalue_at (S depth) inv)) w lu v w1 E Hlu)
    as (la & Hla & Hrun).
  eexists (VRef la), _. split; [exact Hrun|].
  erewrite run_assertions_eval; [|simpl; apply lookup_insert_eq].
  by rewrite (eval_test_getfixturevalue _ v Hname Hid).
Qed.

(** A test that already has its instance of [fixture_user], untouched. *)
Lemma test_getfixturevalue_passes_witness :
  ∃ v w',
    setup 1 (module_invocation "test_getfixturevalue") advanced_fixture_def
      world_with_user = (Ret v, w') ∧
    run_assertions v test_getfixturevalue w' = (Ret tt, w').
Proof.
  apply (test_getfixturevalue_passes 0
           (module_invocation "test_getfixturevalue") world_with_user).
  exists 1%positive. by vm_compute.
Defined.

Lemma marked_or_not name w : marked name w ∨ ¬ marked name w.
Proof.
  destruct (head (iter_markers name (item w :: parents w))) as [m|] eqn:E.
  - left. apply closest_marker_marked. by rewrite E.
  - right. intros [m Hm]%closest_marker_marked. congruence.
Qed.

(** The three data sets [data_source] chooses from, by markers. *)
Lemma data_source_runs r w :
  returns_new_dict (data_source r) w
    (if bool_decide (is_Some (head (iter_markers "mock_data" (item w :: parents w))))
     then mock_data_set
     else if bool_decide (is_Some (head (iter_markers "real_data" (item w :: parents w))))
          then real_data_set else default_data_set).
Proof.
  unfold returns_new_dict.
  destruct (marked_or_not "mock_data" w) as [Hm|Hm].
  - rewrite data_source_mock by done.
    rewrite bool_decide_eq_true_2 by (by apply closest_marker_marked).
    apply new_dict_returns.
  - rewrite bool_decide_eq_false_2 by (by rewrite closest_marker_marked).
    destruct (marked_or_not "real_data" w) as [Hr|Hr].
    + rewrite data_source_real by done.
      rewrite bool_decide_eq_true_2 by (by apply closest_marker_marked).
      apply new_dict_returns.
    + rewrite data_source_default by done.
      rewrite bool_decide_eq_false_2 by (by rewrite closest_marker_marked).
      apply new_dict_returns.
Qed.

(** The verdicts of [test_with_mock_data], [test_with_real_data] and
    [test_with_default_data] in any world: the first passes exactly when a
    [mock_data] marker is present, the second exactly when a [real_data]
    marker is present and no [mock_data] marker is, the third exactly when
    neither is present; a test that does not pass fails on an assertion,
    never on a missing key. *)
Theorem data_source_tests_verdicts depth inv w :
  ∃ v w',
    setup depth inv data_source_def w = (Ret v, w') ∧
    (marked "mock_data" w →
       run_assertions v test_with_mock_data w' = (Ret tt, w') ∧
       run_assertions v test_with_real_data w' = (Raise AssertionError, w') ∧
       run_assertions v test_with_default_data w' = (Raise AssertionError, w')) ∧
    (¬ marked "mock_data" w → marked "real_data" w →
       run_assertions v test_with_mock_data w' = (Raise AssertionError, w') ∧
       run_assertions v test_with_real_data w' = (Ret tt, w') ∧
       run_assertions v test_with_default_data w' = (Raise AssertionError, w')) ∧
    (¬ marked "mock_data" w → ¬ marked "real_data" w →
       run_assertions v test_with_mock_data w' = (Raise AssertionError, w') ∧
       run_assertions v test_with_real_data w' = (Raise AssertionError, w') ∧
       run_assertions v test_with_default_data w' = (Ret tt, w')).
Proof.
  destruct (data_source_runs
              (mk_request data_source_def inv (item_param "data_source" w)
                 (getfixturevalue_at depth inv)) w) as (l & Hl & E).
  eexists (VRef l), _. split; [exact E|].
  assert (Hrun : ∀ d body,
    run_assertions (VRef l) body (set_heap <[l := d]> w)
    = (eval_assertions (heap (set_heap <[l := d]> w)) d body,
       set_heap <[l := d]> w)).
  { intros d body. apply run_assertions_eval. simpl. apply lookup_insert_eq. }
  split; [|split].
  - intros Hm.
    rewrite bool_decide_eq_true_2 by (by apply closest_marker_marked).
    rewrite !Hrun. done.
  - intros Hm Hr.
    rewrite bool_decide_eq_false_2 by (by rewrite closest_marker_marked).
    rewrite bool_decide_eq_true_2 by (by apply closest_marker_marked).
    rewrite !Hrun. done.
  - intros Hm Hr.
    rewrite !bool_decide_eq_false_2 by (by rewrite closest_marker_marked).
    rewrite !Hrun. done.
Qed.

(** ** [demonstrate_request_methods]: what it does and what it returns *)

(** The locals the returned dictionary is built from. *)
Lemma demo_locals_report r w ls w3 :
  demonstrate_request_methods_locals r w = (Ret ls, w3) →
  fixture_name ls = fixturename r ∧ fixture_scope ls = scope r ∧
  test_func_name ls = function__name__ r ∧
  test_module_name ls = module__name__ r ∧
  test_node_name ls = node_name (item w) ∧
  ∃ o, getfixturevalue r "tmp_path" (before_tmp_path_lookup w) = (o, w3).
Proof.
  unfold demonstrate_request_methods_locals.
  run_stmt. run_stmt. run_stmt.
  change (set_item _ (set_finalizers _ w)) with (before_tmp_path_lookup w).
  destruct (getfixturevalue r "tmp_path" (before_tmp_path_lookup w))
    as [[v|e] w4] eqn:E.
  - erewrite bind_Ret; [|by unfold try_except_Exception; rewrite E].
    intros [= <- <-]. repeat split; eauto.
  - destruct (issubclass_Exception e) eqn:He.
    + erewrite bind_Ret; [|by unfold try_except_Exception; rewrite E, He].
      intros [= <- <-]. repeat split; eauto.
    + erewrite bind_Raise; [done|].
      by unfold try_except_Exception; rewrite E, He.
Qed.

Lemma demonstrate_builds_report r w ls w3 :
  demonstrate_request_methods_locals r w = (Ret ls, w3) →
  fixturename r = "demonstrate_request_methods" → scope r = "function" →
  returns_new_dict (λ _, demonstrate_request_methods r w) w3
    (request_report (function__name__ r) (module__name__ r)
       (node_name (item w))).
Proof.
  intros E Hname Hscope.
  destruct (demo_locals_report r w ls w3 E) as (H1 & H2 & H3 & H4 & H5 & _).
  unfold returns_new_dict, demonstrate_request_methods.
  rewrite (bind_Ret _ _ _ _ _ E).
  rewrite H1, H2, H3, H4, H5, Hname, Hscope.
  apply new_dict_returns.
Qed.

Lemma marked_before_tmp_path_lookup name w :
  marked name (before_tmp_path_lookup w) ↔ marked name w ∨ name = "xfail".
Proof.
  unfold marked. simpl. split.
  - intros (n & m & Hn & Hm & Hname).
    apply elem_of_cons in Hn as [->|Hn].
    + simpl in Hm. apply elem_of_app in Hm as [Hm|Hm].
      * left. exists (item w), m. split; [left|done].
      * apply list_elem_of_singleton in Hm as ->. by right.
    + left. exists n, m. split; [by right|done].
  - intros [(n & m & Hn & Hm & Hname)| ->].
    + apply elem_of_cons in Hn as [->|Hn].
      * eexists _, m. split; [left|]. split; [|done].
        simpl. apply elem_of_app. by left.
      * exists n, m. split; [by right|done].
    + eexists _, xfail_marker. split; [left|]. split; [|done].
      simpl. apply elem_of_app. right. left.
Qed.

(** What [demonstrate_request_methods] does, whatever the [tmp_path] fixture
    is.  Its lookup of [tmp_path] runs in a world where [cleanup_function]
    is the last finalizer registered, the test carries an [xfail] marker and
    every other marker is as it was.  When that lookup ends with a value or
    with an instance of [Exception], the fixture returns a new dictionary of
    exactly five entries, which name the fixture, its scope, the test
    function, its module and its node, and it changes nothing else in the
    world the lookup left. *)
Theorem demonstrate_request_methods_effects depth inv w o w3 :
  getfixturevalue_at depth inv "tmp_path" (before_tmp_path_lookup w) = (o, w3) →
  (∀ e, o = Raise e → issubclass_Exception e = true) →
  finalizers (before_tmp_path_lookup w) = finalizers w ++ [cleanup_function] ∧
  heap (before_tmp_path_lookup w) = heap w ∧
  (∀ name, marked name (before_tmp_path_lookup w)
           ↔ marked name w ∨ name = "xfail") ∧
  ∃ l, heap w3 !! l = None ∧
    setup depth inv demonstrate_request_methods_def w =
      (Ret (VRef l),
       set_heap <[l := request_report (inv_function inv) (inv_module inv)
                         (node_name (item w))]> w3).
Proof.
  intros E Ho. split; [done|]. split; [done|].
  split; [intros name; apply marked_before_tmp_path_lookup|].
  rewrite setup_demonstrate. set (r := mk_request _ _ _ _).
  assert (Hls : ∃ ls, demonstrate_request_methods_locals r w = (Ret ls, w3)).
  { pose proof (demo_locals_cases r w) as H.
    change (getfixturevalue r "tmp_path") with
      (getfixturevalue_at depth inv "tmp_path") in H.
    rewrite E in H. destruct o as [v|e].
    - destruct H as (ls & ? & _). eauto.
    - rewrite (Ho e eq_refl) in H. destruct H as (ls & ? & _). eauto. }
  destruct Hls as [ls Hls].
  exact (demonstrate_builds_report r w ls w3 Hls eq_refl eq_refl).
Qed.

(** With no [tmp_path] fixture at all, the lookup fails with a lookup error
    and the fixture goes on. *)
Lemma demonstrate_request_methods_effects_witness :
  finalizers (before_tmp_path_lookup (module_world "test_request_methods" []))
  = finalizers (module_world "test_request_methods" []) ++ [cleanup_function] ∧
  heap (before_tmp_path_lookup (module_world "test_request_methods" []))
  = heap (module_world "test_request_methods" []) ∧
  (∀ name,
     marked name (before_tmp_path_lookup (module_world "test_request_methods" []))
     ↔ marked name (module_world "test_request_methods" []) ∨ name = "xfail") ∧
  ∃ l,
    heap (before_tmp_path_lookup (module_world "test_request_methods" [])) !! l
    = None ∧
    setup 1 bare_invocation demonstrate_request_methods_def
      (module_world "test_request_methods" []) =
      (Ret (VRef l),
       set_heap <[l := request_report (inv_function bare_invocation)
                         (inv_module bare_invocation)
                         (node_name (item (module_world "test_request_methods" [])))]>
         (before_tmp_path_lookup (module_world "test_request_methods" []))).
Proof.
  apply (demonstrate_request_methods_effects 1 bare_invocation
           (module_world "test_request_methods" [])
           (Raise (Exn FixtureLookupError "tmp_path"))
           (before_tmp_path_lookup (module_world "test_request_methods" []))).
  - reflexivity.
  - intros e [= <-]. reflexivity.
Defined.

Lemma eval_test_request_methods h f m n :
  eval_assertions h (request_report f m n) test_request_methods
  = verdict (bool_decide (f = "test_request_methods") && contains "test_" m
             && bool_decide (n = "test_request_methods")).
Proof.
  unfold test_request_methods, request_report. simpl.
  rewrite lookup_insert_eq. simpl.
  rewrite lookup_insert_ne, lookup_insert_eq by done. simpl.
  rewrite !lookup_insert_ne, lookup_insert_eq by done. simpl.
  destruct (bool_decide (f = "test_request_methods")); [|done]. simpl.
  rewrite !lookup_insert_ne, lookup_insert_eq by done. simpl.
  destruct (contains "test_" m); [|done]. simpl.
  rewrite !lookup_insert_ne, lookup_insert_eq by done. simpl.
  by destruct (bool_decide (n = "test_request_methods")).
Qed.

(** The verdict of [test_request_methods]: whenever its fixture returns,
    the test passes exactly when the test function is called
    [test_request_methods], the name of its module contains ["test_"] and
    its node has the name of the function; otherwise it fails on an
    assertion.  The assertions change nothing. *)
Theorem test_request_methods_verdict depth inv w v w' :
  setup depth inv demonstrate_request_methods_def w = (Ret v, w') →
  run_assertions v test_request_methods w' =
    (verdict (bool_decide (inv_function inv = "test_request_methods")
              && contains "test_" (inv_module inv)
              && bool_decide (node_name (item w) = "test_request_methods")),
     w').
Proof.
  rewrite setup_demonstrate. set (r := mk_request _ _ _ _). intros E.
  destruct (demonstrate_request_methods_locals r w) as [[ls|e] w3] eqn:Els.
  - destruct (demonstrate_builds_report r w ls w3 Els eq_refl eq_refl)
      as (l & Hl & E').
    rewrite E in E'. injection E' as -> ->.
    erewrite run_assertions_eval; [|simpl; apply lookup_insert_eq].
    by rewrite eval_test_request_methods.
  - unfold demonstrate_request_methods in E.
    rewrite (bind_Raise _ _ _ _ _ Els) in E. discriminate E.
Qed.

(** The module as it is named, [request_fixture]: its name does not contain
    ["test_"], so the test fails on its fourth assertion. *)
Lemma test_request_methods_verdict_witness :
  run_assertions (VRef 1) test_request_methods
    (setup 1 (module_invocation "test_request_methods")
       demonstrate_request_methods_def
       (module_world "test_request_methods" [])).2
  = (Raise AssertionError,
     (setup 1 (module_invocation "test_request_methods")
        demonstrate_request_methods_def
        (module_world "test_request_methods" [])).2).
Proof.
  exact (test_request_methods_verdict 1
           (module_invocation "test_request_methods")
           (module_world "test_request_methods" []) (VRef 1) _ eq_refl).
Defined.

(** ** [scenario] under [test_parameterized_fixture] *)

Lemma setup_scenario_runs depth inv w p :
  item_param "scenario" w = Some p →
  returns_new_dict (setup depth inv scenario_def) w
    (scenario_record p (node_name (item w))).
Proof.
  intros Hp. unfold returns_new_dict, setup, instantiate. simpl. rewrite Hp.
  apply (scenario_runs
           (mk_request scenario_def inv (Some p) (getfixturevalue_at depth inv))
           w p eq_refl).
Qed.

Lemma eval_test_parameterized_fixture h p n :
  eval_assertions h (scenario_record p n) test_parameterized_fixture
  = verdict (existsb (py_eq p)
               [LStr "scenario1"; LStr "scenario2"; LStr "scenario3"]
             && String.prefix "test_parameterized_fixture" n).
Proof.
  unfold test_parameterized_fixture, scenario_record.
  cbn [eval_assertions eval_assertion].
  rewrite lookup_insert_eq.
  destruct (existsb _ _); [|done]. cbn [verdict andb].
  rewrite lookup_insert_ne, lookup_insert_eq by done. cbn.
  rewrite !lookup_insert_ne, lookup_insert_eq by done.
  by destruct (String.prefix _ n).
Qed.

(** The verdict of [test_parameterized_fixture] for any parameter [p] the
    item may carry for [scenario]: the fixture returns, and the test passes
    exactly when [p] equals one of the three declared names and the name of
    the node starts with ["test_parameterized_fixture"]; otherwise it fails
    on an assertion. *)
Theorem test_parameterized_fixture_verdict depth inv w p :
  item_param "scenario" w = Some p →
  ∃ v w',
    setup depth inv scenario_def w = (Ret v, w') ∧
    run_assertions v test_parameterized_fixture w' =
      (verdict (existsb (py_eq p)
                  [LStr "scenario1"; LStr "scenario2"; LStr "scenario3"]
                && String.prefix "test_parameterized_fixture"
                     (node_name (item w))),
       w').
Proof.
  intros Hp. destruct (setup_scenario_runs depth inv w p Hp) as (l & Hl & E).
  eexists (VRef l), _. split; [exact E|].
  erewrite run_assertions_eval; [|simpl; apply lookup_insert_eq].
  by rewrite eval_test_parameterized_fixture.
Qed.

(** The second invocation of the sweep of the source's test. *)
Lemma test_parameterized_fixture_verdict_witness :
  ∃ v w',
    setup 1 (module_invocation "test_parameterized_fixture") scenario_def
      (with_param scenario_def (VStr "scenario2")
         (module_world "test_parameterized_fixture" [])) = (Ret v, w') ∧
    run_assertions v test_parameterized_fixture w' = (Ret tt, w').
Proof.
  exact (test_parameterized_fixture_verdict 1
           (module_invocation "test_parameterized_fixture")
           (with_param scenario_def (VStr "scenario2")
              (module_world "test_parameterized_fixture" []))
           (VStr "scenario2") eq_refl).
Defined.

Lemma prefix_append a s t :
  String.prefix a s = true → String.prefix a (s ++ t)%string = true.
Proof.
  revert s. induction a as [|c a IH]; intros s.
  - intros _. by destruct (s ++ t)%string.
  - destruct s as [|c' s]; simpl; [done|].
    destruct (Ascii.ascii_dec c c'); [apply IH|done].
Qed.

(** Every invocation of a sweep over the parameters of [scenario] passes
    [test_parameterized_fixture], when the sweep starts from a node whose
    name starts with ["test_parameterized_fixture"]. *)
Theorem test_parameterized_fixture_passes_in_sweep depth inv w w1 :
  String.prefix "test_parameterized_fixture" (node_name (item w)) = true →
  w1 ∈ sweep scenario_def w →
  ∃ v w',
    setup depth inv scenario_def w1 = (Ret v, w') ∧
    run_assertions v test_parameterized_fixture w' = (Ret tt, w').
Proof.
  intros Hname Hw1.
  change (sweep scenario_def w)
    with ((λ p, with_param scenario_def p w) <$> scenario_params) in Hw1.
  apply list_elem_of_fmap in Hw1 as (p & -> & Hp).
  assert (Hparam : item_param "scenario" (with_param scenario_def p w) = Some p).
  { unfold item_param. simpl. apply lookup_singleton_eq. }
  destruct (setup_scenario_runs depth inv _ p Hparam) as (l & Hl & E).
  eexists (VRef l), _. split; [exact E|].
  erewrite run_assertions_eval; [|apply lookup_insert_eq].
  rewrite eval_test_parameterized_fixture.
  assert (Hpre : String.prefix "test_parameterized_fixture"
                   (node_name (item (with_param scenario_def p w))) = true)
    by (simpl; by apply prefix_append).
  rewrite Hpre. unfold scenario_params in Hp.
  repeat (apply elem_of_cons in Hp as [->|Hp]; [reflexivity|]).
  by apply not_elem_of_nil in Hp.
Qed.

(** The sweep of the source's test, third invocation. *)
Lemma test_parameterized_fixture_passes_in_sweep_witness :
  ∃ v w',
    setup 1 (module_invocation "test_parameterized_fixture") scenario_def
      (with_param scenario_def (VStr "scenario3")
         (module_world "test_parameterized_fixture" [])) = (Ret v, w') ∧
    run_assertions v test_parameterized_fixture w' = (Ret tt, w').
Proof.
  apply (test_parameterized_fixture_passes_in_sweep 1
           (module_invocation "test_parameterized_fixture")
           (module_world "test_parameterized_fixture" [])).
  - reflexivity.
  - right. right. left.
Defined.

(** ** The life of [managed_resource] *)

Lemma exec_stmt_allocated l s w :
  is_Some (heap w !! l) → is_Some (heap (exec_stmt (VRef l) s w).2 !! l).
Proof.
  intros [d Hd]. destruct s as [k x|k|k x|k]; cbn [exec_stmt].
  - rewrite (dict_setitem_ref _ _ _ _ _ Hd). simpl.
    rewrite lookup_insert_eq. eauto.
  - destruct (d !! k) as [x|] eqn:Hk.
    + rewrite (dict_delitem_Some _ _ _ _ _ Hd Hk). simpl.
      rewrite lookup_insert_eq. eauto.
    + rewrite (dict_delitem_None _ _ _ _ Hd Hk). simpl. eauto.
  - destruct (d !! k) as [y|] eqn:Hk.
    + rewrite (bind_Ret _ _ _ _ _ (dict_getitem_Some _ _ _ _ _ Hd Hk)).
      rewrite check_runs. simpl. eauto.
    + rewrite (bind_Raise _ _ _ _ _ (dict_getitem_None _ _ _ _ Hd Hk)).
      simpl. eauto.
  - rewrite (bind_Ret _ _ _ _ _ (py_in_ref _ _ _ _ Hd)).
    rewrite check_runs. simpl. eauto.
Qed.

Lemma exec_body_allocated l ss w :
  is_Some (heap w !! l) → is_Some (heap (exec_body (VRef l) ss w).2 !! l).
Proof.
  revert w. induction ss as [|s ss IH]; intros w Hw; [done|]. simpl.
  pose proof (exec_stmt_allocated l s w Hw) as Hs.
  unfold mbind, M_bind, bind.
  destruct (exec_stmt (VRef l) s w) as [[[]|e] w1]; simpl in *; [|done].
  by apply IH.
Qed.

Lemma finish_single f w :
  finalizers w = [f] →
  finish w =
    (Ret [(f, (run_finalizer f (set_finalizers (λ q, removelast q) w)).1)],
     set_instances (λ _, ∅)
       (run_finalizer f (set_finalizers (λ q, removelast q) w)).2).
Proof.
  intros H. unfold finish. rewrite H. simpl. rewrite H. simpl.
  by destruct (run_finalizer f _).
Qed.

(** The life of [managed_resource] under any test body, in a test that
    starts with no finalizer waiting.  The fixture returns the resource, the
    body runs, and the end of the test calls the teardown, once and alone.
    Whatever the body did to the resource, also to its status, the resource
    ends with status ["inactive"] and with every other field as the body
    left it.  The teardown ends well exactly when the body left the
    resource a ["name"]; without one it raises [KeyError], after it has set
    the status. *)
Theorem managed_resource_life depth inv w ss :
  finalizers w = [] →
  ∃ l w1 ob w2 o w3,
    setup depth inv managed_resource_def w = (Ret (VRef l), w1) ∧
    exec_body (VRef l) ss w1 = (ob, w2) ∧
    run_test (setup depth inv managed_resource_def)
      (λ d, exec_body d ss) w = (Ret (ob, [(teardown l, o)]), w3) ∧
    field w3 l "status" = Some (VStr "inactive") ∧
    (∀ k, k ≠ "status" → field w3 l k = field w2 l k) ∧
    finalizers w3 = [] ∧
    (o = Ret tt ↔ is_Some (field w2 l "name")) ∧
    (field w2 l "name" = None → o = Raise (Exn KeyError "name")).
Proof.
  intros Hq.
  destruct (managed_resource_runs
              (mk_request managed_resource_def inv
                 (item_param "managed_resource" w)
                 (getfixturevalue_at depth inv)) w) as (l & Hl & E).
  rewrite <- setup_managed_resource in E.
  set (w1 := set_finalizers _ _) in E.
  assert (Hw1 : is_Some (heap w1 !! l))
    by (simpl; rewrite lookup_insert_eq; eauto).
  pose proof (exec_body_allocated l ss w1 Hw1) as Halloc.
  pose proof (exec_body_queue (VRef l) ss w1) as Hqueue.
  destruct (exec_body (VRef l) ss w1) as [ob w2] eqn:Ebody.
  simpl in Halloc, Hqueue. destruct Halloc as [d2 Hd2].
  assert (Hq2 : finalizers w2 = [teardown l])
    by (rewrite Hqueue; simpl; by rewrite Hq).
  set (w2' := set_finalizers (λ q, removelast q) w2).
  assert (Hd2' : heap w2' !! l = Some d2) by done.
  pose proof (teardown_runs l d2 w2' Hd2') as Htd. cbv zeta in Htd.
  exists l, w1, ob, w2.
  exists (run_finalizer (teardown l) w2').1,
    (set_instances (λ _, ∅) (run_finalizer (teardown l) w2').2).
  split; [done|]. split; [done|]. split.
  { unfold run_test. rewrite E, Ebody. by rewrite (finish_single _ _ Hq2). }
  assert (H3 :
    heap (run_finalizer (teardown l) w2').2
      = <[l := <["status" := VStr "inactive"]> d2]> (heap w2) ∧
    finalizers (run_finalizer (teardown l) w2').2 = [] ∧
    (run_finalizer (teardown l) w2').1
      = if d2 !! "name" is Some _ then Ret tt
        else Raise (Exn KeyError "name")).
  { rewrite Htd. destruct (d2 !! "name"); simpl; by rewrite Hq2. }
  destruct H3 as (Hheap3 & Hfin3 & Ho).
  unfold field. cbn [heap finalizers set_instances].
  rewrite Ho, Hfin3, Hheap3, lookup_insert_eq, Hd2.
  simpl.
  split; [apply lookup_insert_eq|].
  split; [intros k Hk; by apply lookup_insert_ne|].
  split; [done|].
  destruct (d2 !! "name") as [name|].
  - split; [|done]. split; eauto.
  - split; [|done]. split; [done|]. by intros [? ?].
Qed.

(** A body that removes the name of the resource: the teardown raises
    [KeyError] and the resource is inactive all the same. *)
Lemma managed_resource_life_witness :
  ∃ l w1 ob w2 o w3,
    setup 1 (module_invocation "test_managed_resource") managed_resource_def
      (module_world "test_managed_resource" []) = (Ret (VRef l), w1) ∧
    exec_body (VRef l) [DelItem "name"] w1 = (ob, w2) ∧
    run_test
      (setup 1 (module_invocation "test_managed_resource") managed_resource_def)
      (λ d, exec_body d [DelItem "name"])
      (module_world "test_managed_resource" [])
    = (Ret (ob, [(teardown l, o)]), w3) ∧
    field w3 l "status" = Some (VStr "inactive") ∧
    (∀ k, k ≠ "status" → field w3 l k = field w2 l k) ∧
    finalizers w3 = [] ∧
    (o = Ret tt ↔ is_Some (field w2 l "name")) ∧
    (field w2 l "name" = None → o = Raise (Exn KeyError "name")).
Proof.
  apply (managed_resource_life 1 (module_invocation "test_managed_resource")
           (module_world "test_managed_resource" []) [DelItem "name"]).
  reflexivity.
Defined.

Lemma test_managed_resource_body l w :
  heap w !! l = Some fresh_resource →
  exec_body (VRef l) test_managed_resource w
  = (Ret tt,
     set_heap <[l := <["data" := VStr "test data"]> fresh_resource]> w).
Proof.
  intros Hl. unfold test_managed_resource, exec_body, exec_stmt.
  erewrite bind_Ret;
    [|erewrite bind_Ret;
        [|by eapply dict_getitem_Some; [exact Hl|]]; reflexivity].
  rewrite (bind_Ret _ _ _ _ _ (dict_setitem_ref _ _ _ _ _ Hl)).
  erewrite bind_Ret; [reflexivity|].
  erewrite bind_Ret; [|apply py_in_ref; simpl; apply lookup_insert_eq].
  reflexivity.
Qed.

(** [test_managed_resource] passes in every world that has no finalizer
    waiting: the body ends well, the teardown is the one callback called
    and ends well, the resource is left with its name, the ["data"] the
    body added and status ["inactive"], the two messages are printed in
    order, and no other object and nothing of the node is changed. *)
Theorem test_managed_resource_passes depth inv w :
  finalizers w = [] →
  ∃ l w3,
    heap w !! l = None ∧
    run_test (setup depth inv managed_resource_def)
      (λ d, exec_body d test_managed_resource) w
    = (Ret (Ret tt, [(teardown l, Ret tt)]), w3) ∧
    heap w3 = <[l := released_resource]> (heap w) ∧
    stdout w3 = stdout w ++ [resource_created; resource_released] ∧
    finalizers w3 = [] ∧ item w3 = item w ∧ parents w3 = parents w.
Proof.
  intros Hq.
  destruct (managed_resource_runs
              (mk_request managed_resource_def inv
                 (item_param "managed_resource" w)
                 (getfixturevalue_at depth inv)) w) as (l & Hl & E).
  rewrite <- setup_managed_resource in E.
  set (w1 := set_finalizers _ _) in E.
  assert (Hw1 : heap w1 !! l = Some fresh_resource)
    by (simpl; apply lookup_insert_eq).
  pose proof (test_managed_resource_body l w1 Hw1) as Ebody.
  set (d2 := <["data" := VStr "test data"]> fresh_resource) in *.
  set (w2 := set_heap <[l := d2]> w1) in *.
  assert (Hq2 : finalizers w2 = [teardown l]) by (simpl; by rewrite Hq).
  set (w2' := set_finalizers (λ q, removelast q) w2).
  assert (Hd2' : heap w2' !! l = Some d2) by (simpl; apply lookup_insert_eq).
  pose proof (teardown_runs l d2 w2' Hd2') as Htd. cbv zeta in Htd.
  change (d2 !! "name") with (Some (VStr "test_resource")) in Htd.
  eexists l, _. split; [done|]. split.
  { unfold run_test. rewrite E, Ebody, (finish_single _ _ Hq2).
    fold w2'. rewrite Htd. reflexivity. }
  simpl. rewrite Hq. repeat split.
  - by rewrite !insert_insert_eq.
  - by rewrite <- !app_assoc.
Qed.

(** The test as the module has it. *)
Lemma test_managed_resource_passes_witness :
  ∃ l w3,
    heap (module_world "test_managed_resource" []) !! l = None ∧
    run_test
      (setup 1 (module_invocation "test_managed_resource") managed_resource_def)
      (λ d, exec_body d test_managed_resource)
      (module_world "test_managed_resource" [])
    = (Ret (Ret tt, [(teardown l, Ret tt)]), w3) ∧
    heap w3 = <[l := released_resource]>
                (heap (module_world "test_managed_resource" [])) ∧
    stdout w3 = stdout (module_world "test_managed_resource" [])
                ++ [resource_created; resource_released] ∧
    finalizers w3 = [] ∧
    item w3 = item (module_world "test_managed_resource" []) ∧
    parents w3 = parents (module_world "test_managed_resource" []).
Proof.
  apply (test_managed_resource_passes 1
           (module_invocation "test_managed_resource")
           (module_world "test_managed_resource" [])).
  reflexivity.
Defined.

(** ** [test_request_methods] from setup to teardown *)

Lemma setup_demonstrate_report depth inv w o w3 :
  getfixturevalue_at depth inv "tmp_path" (before_tmp_path_lookup w) = (o, w3) →
  (∀ e, o = Raise e → issubclass_Exception e = true) →
  returns_new_dict (λ _, setup depth inv demonstrate_request_methods_def w) w3
    (request_report (inv_function inv) (inv_module inv) (node_name (item w))).
Proof.
  intros E Ho. rewrite setup_demonstrate. set (r := mk_request _ _ _ _).
  assert (Hls : ∃ ls, demonstrate_request_methods_locals r w = (Ret ls, w3)).
  { pose proof (demo_locals_cases r w) as H.
    change (getfixturevalue r "tmp_path") with
      (getfixturevalue_at depth inv "tmp_path") in H.
    rewrite E in H. destruct o as [v|e].
    - destruct H as (ls & ? & _). eauto.
    - rewrite (Ho e eq_refl) in H. destruct H as (ls & ? & _). eauto. }
  destruct Hls as [ls Hls].
  exact (demonstrate_builds_report r w ls w3 Hls eq_refl eq_refl).
Qed.

(** One run of [test_request_methods], in a test that starts with no
    finalizer waiting and whose lookup of [tmp_path] ends with a value or
    with an instance of [Exception] and registers nothing itself.  The
    fixture returns its report, the assertions give their verdict, and then
    [cleanup_function] is called, once and alone, and ends well: it prints
    ["Cleaning up resources"] after everything printed before and touches
    neither the report, nor the markers, nor any other object.  The queue
    is empty afterwards. *)
Theorem test_request_methods_life depth inv w o w3 :
  finalizers w = [] →
  getfixturevalue_at depth inv "tmp_path" (before_tmp_path_lookup w) = (o, w3) →
  (∀ e, o = Raise e → issubclass_Exception e = true) →
  finalizers w3 = finalizers (before_tmp_path_lookup w) →
  ∃ l w4,
    heap w3 !! l = None ∧
    run_test (setup depth inv demonstrate_request_methods_def)
      (λ d, run_assertions d test_request_methods) w
    = (Ret (verdict (bool_decide (inv_function inv = "test_request_methods")
                     && contains "test_" (inv_module inv)
                     && bool_decide (node_name (item w) = "test_request_methods")),
            [(cleanup_function, Ret tt)]), w4) ∧
    heap w4 = <[l := request_report (inv_function inv) (inv_module inv)
                       (node_name (item w))]> (heap w3) ∧
    stdout w4 = stdout w3 ++ ["Cleaning up resources"] ∧
    finalizers w4 = [] ∧ item w4 = item w3 ∧ parents w4 = parents w3.
Proof.
  intros Hq E Ho Hq3.
  destruct (setup_demonstrate_report depth inv w o w3 E Ho) as (l & Hl & Es).
  set (d := request_report _ _ _) in *.
  set (w' := set_heap <[l := d]> w3) in *.
  assert (Hd : heap w' !! l = Some d) by (simpl; apply lookup_insert_eq).
  assert (Hq' : finalizers w' = [cleanup_function])
    by (simpl; rewrite Hq3; simpl; by rewrite Hq).
  exists l. eexists. split; [done|]. split.
  { unfold run_test. rewrite Es, (run_assertions_eval l d _ w' Hd).
    unfold d at 1. rewrite eval_test_request_methods.
    rewrite (finish_single _ _ Hq'). reflexivity. }
  simpl. rewrite Hq3. simpl. by rewrite Hq.
Qed.

(** With no [tmp_path] fixture at all: the lookup fails with a lookup error,
    which the fixture recovers from. *)
Lemma test_request_methods_life_witness :
  ∃ l w4,
    heap (before_tmp_path_lookup (module_world "test_request_methods" [])) !! l
    = None ∧
    run_test (setup 1 bare_invocation demonstrate_request_methods_def)
      (λ d, run_assertions d test_request_methods)
      (module_world "test_request_methods" [])
    = (Ret (verdict
              (bool_decide (inv_function bare_invocation = "test_request_methods")
               && contains "test_" (inv_module bare_invocation)
               && bool_decide
                    (node_name (item (module_world "test_request_methods" []))
                     = "test_request_methods")),
            [(cleanup_function, Ret tt)]), w4) ∧
    heap w4 = <[l := request_report (inv_function bare_invocation)
                       (inv_module bare_invocation)
                       (node_name (item (module_world "test_request_methods" [])))]>
                (heap (before_tmp_path_lookup
                         (module_world "test_request_methods" []))) ∧
    stdout w4
    = stdout (before_tmp_path_lookup (module_world "test_request_methods" []))
      ++ ["Cleaning up resources"] ∧
    finalizers w4 = [] ∧
    item w4 = item (before_tmp_path_lookup (module_world "test_request_methods" [])) ∧
    parents w4
    = parents (before_tmp_path_lookup (module_world "test_request_methods" [])).
Proof.
  apply (test_request_methods_life 1 bare_invocation
           (module_world "test_request_methods" [])
           (Raise (Exn FixtureLookupError "tmp_path"))
           (before_tmp_path_lookup (module_world "test_request_methods" []))).
  - reflexivity.
  - reflexivity.
  - intros e [= <-]. reflexivity.
  - reflexivity.
Defined.
